(** * PacketOps: header composition and the Internet checksum

    A shallow embedding of [tools.py], [ip_generator.py], [tcp_generator.py]
    and [icmp_generator.py].  Python integers are unbounded, so every field is
    a [Z]; a [bytes] object is a list of [Byte.byte]; [struct.pack] is the one
    place where a value is checked against a bit width. *)

From Stdlib Require Import ZArith List Lia Bool.
From Stdlib.Strings Require Import Byte.
From Equations Require Import Equations.
Import ListNotations.
Local Open Scope Z_scope.

(** ** Bytes *)

Definition bytes : Type := list byte.

Definition byte_val (b : byte) : Z := Z.of_N (Byte.to_N b).

(** The byte whose value is [z mod 256]. *)
Definition byte_of_Z (z : Z) : byte :=
  match Byte.of_N (Z.to_N (z mod 256)) with
  | Some b => b
  | None => x00
  end.

(** [len(b)] of Python, as an integer. *)
Definition len {A} (l : list A) : Z := Z.of_nat (length l).

(** ** tools.py *)

Module Tools.

(** [_carry_around_add(a, b)]. *)
Definition _carry_around_add (a b : Z) : Z :=
  let c := a + b in
  Z.shiftr c 16 + Z.land c 0xffff.

(** [int.from_bytes(header, 'big', signed=False)]. *)
Definition int_from_bytes (header : bytes) : Z :=
  fold_left (fun acc b => acc * 256 + byte_val b) header 0.

(** The [while header > 0] loop of [chksum]: the state is the pair
    [(header, words)].  One iteration removes the low byte of [header], so
    the loop runs once per byte of the integer; [fuel] bounds the number of
    iterations and [break_words_exits] below shows that the bound chosen in
    [chksum] is never the reason the loop stops. *)
Fixpoint break_words (fuel : nat) (header : Z) (words : list Z) : Z * list Z :=
  match fuel with
  | O => (header, words)
  | S fuel' =>
      if 0 <? header then
        let next_word := Z.land header 0xff in
        let header := Z.shiftr header 8 in
        break_words fuel' header (words ++ [next_word])
      else (header, words)
  end.

(** The [if len(words) % 2 == 1: words.append(0)] statement. *)
Definition pad_even (words : list Z) : list Z :=
  if (length words mod 2 =? 1)%nat then words ++ [0] else words.

(** The [for i in range(0, len(words), 2)] loop: [words[i]] and [words[i+1]]
    are the two heads of what is left of the list.  A list of odd length
    would make [words[i+1]] raise [IndexError]; [pad_even] rules that out
    ([pad_even_length]), and the model stops there with the sum so far. *)
Fixpoint sum_words (words : list Z) (sum_ : Z) : Z :=
  match words with
  | w0 :: w1 :: rest =>
      let word_16_bit := Z.shiftl w1 8 + w0 in
      sum_words rest (_carry_around_add sum_ word_16_bit)
  | _ => sum_
  end.

(** The successive values of [sum_] in that loop, the initial one included. *)
Fixpoint sum_trace (words : list Z) (sum_ : Z) : list Z :=
  match words with
  | w0 :: w1 :: rest =>
      sum_ :: sum_trace rest (_carry_around_add sum_ (Z.shiftl w1 8 + w0))
  | _ => [sum_]
  end.

Definition chksum_words (header : bytes) : list Z :=
  pad_even (snd (break_words (length header) (int_from_bytes header) [])).

(** [chksum(header)]. *)
Definition chksum (header : bytes) : Z :=
  let sum_ := sum_words (chksum_words header) 0 in
  Z.land (Z.lnot sum_) 0xffff.

End Tools.

(** ** The reference algorithm of RFC 1071, as the specification words it *)

Module RFC1071.

(** Fold the carry out of bit 16 back into the low 16 bits until no carry
    remains. *)
Equations? fold_carry (c : Z) : Z by wf (Z.to_nat c) lt :=
  fold_carry c with Z_lt_dec c 0x10000 := {
    | left _ => c
    | right _ => fold_carry (Z.shiftr c 16 + Z.land c 0xffff) }.
Proof.
  rewrite Z.shiftr_div_pow2 by lia.
  change 65535 with (Z.ones 16). rewrite Z.land_ones by lia.
  change (2 ^ 16) with 65536.
  pose proof (Z.mod_pos_bound c 65536).
  assert (c = 65536 * (c / 65536) + c mod 65536) by (apply Z.div_mod; lia).
  lia.
Qed.

(** 16-bit one's-complement addition. *)
Definition oc_add (a b : Z) : Z := fold_carry (a + b).

(** The input split into 16-bit big-endian words, from its first byte; a
    last lone byte is the high half of a word whose low half is zero. *)
Fixpoint words16 (bs : bytes) : list Z :=
  match bs with
  | b0 :: b1 :: rest => (byte_val b0 * 256 + byte_val b1) :: words16 rest
  | [b0] => [byte_val b0 * 256]
  | [] => []
  end.

Definition checksum (bs : bytes) : Z :=
  Z.land (Z.lnot (fold_left oc_add (words16 bs) 0)) 0xffff.

End RFC1071.

(** ** struct.pack *)

Module Struct.

(** The format characters the generators use, all in network byte order
    (the leading [!] of every format string): [B] one byte, [H] two, [I] and
    [L] four. *)
Inductive code := B | H | I | L.

Definition size (c : code) : nat :=
  match c with
  | B => 1
  | H => 2
  | I | L => 4
  end%nat.

(** The [n] low bytes of [v], most significant first. *)
Fixpoint be_bytes (n : nat) (v : Z) : bytes :=
  match n with
  | O => []
  | S n' => byte_of_Z (Z.shiftr v (8 * Z.of_nat n')) :: be_bytes n' v
  end.

(** An argument of format [c] must satisfy [0 <= v < 2 ^ (8 * size c)]. *)
Definition fitsb (c : code) (v : Z) : bool :=
  (0 <=? v) && (v <? 2 ^ (8 * Z.of_nat (size c))).

(** One argument: [struct.error] ([None]) when it does not fit. *)
Definition pack_arg (c : code) (v : Z) : option bytes :=
  if fitsb c v then Some (be_bytes (size c) v) else None.

(** [struct.pack(fmt, *args)]; a wrong number of arguments is a
    [struct.error] as well. *)
Fixpoint pack (fmt : list code) (args : list Z) : option bytes :=
  match fmt, args with
  | [], [] => Some []
  | c :: fmt', v :: args' =>
      match pack_arg c v, pack fmt' args' with
      | Some b, Some rest => Some (b ++ rest)
      | _, _ => None
      end
  | _, _ => None
  end.

(** What [pack] checks and what it produces, stated apart. *)
Fixpoint fits_all (fmt : list code) (args : list Z) : bool :=
  match fmt, args with
  | [], [] => true
  | c :: fmt', v :: args' => fitsb c v && fits_all fmt' args'
  | _, _ => false
  end.

Fixpoint encode (fmt : list code) (args : list Z) : bytes :=
  match fmt, args with
  | c :: fmt', v :: args' => be_bytes (size c) v ++ encode fmt' args'
  | _, _ => []
  end.

End Struct.

(** ** How a call ends *)

(** The exceptions these modules meet: the [Exception] that
    [TCPGenerator.pack] raises for options, and [struct.error]. *)
Inductive exn := CannotHandleOptions | StructError.

(** A call returns a value, lets an exception reach its caller, or ends in
    the [except Exception] handler of [IPGenerator.pack] or
    [TCPGenerator.pack], which prints the fields and calls [exit()]: the
    caller then sees [SystemExit], which no [except Exception] catches, and
    [Exited e] records the exception [e] that the handler caught. *)
Inductive outcome (A : Type) :=
| Returned (a : A)
| Raised (e : exn)
| Exited (e : exn).
Arguments Returned {A} a.
Arguments Raised {A} e.
Arguments Exited {A} e.

(** ** constants.py *)

Module Constants.

Inductive IPProtocol :=
| HOPOPT | ICMP | IGMP | GGP | IP_IN_IP | ST | TCP | CBT | EGP | IGP.

Definition IPProtocol_value (p : IPProtocol) : Z :=
  match p with
  | HOPOPT => 0 | ICMP => 1 | IGMP => 2 | GGP => 3 | IP_IN_IP => 4
  | ST => 5 | TCP => 6 | CBT => 7 | EGP => 8 | IGP => 9
  end.

Inductive ICMPType :=
| ECHO_REPLY | DEST_UNRCHBL | REDIRECT | ECHO_REQUEST | ROUTER_ADVERTISEMENT
| ROUTER_SOLICITATION | TIME_EXCEEDED | BAD_IP_HEADER | TIMESTAMP
| TIMESTAMP_REPLY.

Definition ICMPType_value (t : ICMPType) : Z :=
  match t with
  | ECHO_REPLY => 0 | DEST_UNRCHBL => 3 | REDIRECT => 5 | ECHO_REQUEST => 8
  | ROUTER_ADVERTISEMENT => 9 | ROUTER_SOLICITATION => 10
  | TIME_EXCEEDED => 11 | BAD_IP_HEADER => 12 | TIMESTAMP => 13
  | TIMESTAMP_REPLY => 14
  end.

End Constants.

(** ** ip_generator.py *)

Module IPGenerator.

Import Struct.

(** The attributes [__init__] creates. *)
Record t := mk {
  ip_version : Z;
  ip_hdr_len : Z;
  ip_dscp : Z;
  ip_ecn : Z;
  ip_total_len : Z;
  ip_id : Z;
  ip_flag : Z;
  ip_frag_offset : Z;
  ip_ttl : Z;
  ip_protocol : Z;
  ip_hdr_chksum : Z;
  ip_src_ip : Z;
  ip_dst_ip : Z
}.

Definition init (ip_protocol : Constants.IPProtocol) : t :=
  {| ip_version := 4; ip_hdr_len := 5; ip_dscp := 0; ip_ecn := 0;
     ip_total_len := 0; ip_id := 1; ip_flag := 2; ip_frag_offset := 0;
     ip_ttl := 255; ip_protocol := Constants.IPProtocol_value ip_protocol;
     ip_hdr_chksum := 0; ip_src_ip := 0; ip_dst_ip := 0 |}.

(** Attribute assignments. *)
Definition set_ip_total_len (self : t) (v : Z) : t :=
  mk (ip_version self) (ip_hdr_len self) (ip_dscp self) (ip_ecn self) v
     (ip_id self) (ip_flag self) (ip_frag_offset self) (ip_ttl self)
     (ip_protocol self) (ip_hdr_chksum self) (ip_src_ip self) (ip_dst_ip self).

Definition set_ip_id (self : t) (v : Z) : t :=
  mk (ip_version self) (ip_hdr_len self) (ip_dscp self) (ip_ecn self)
     (ip_total_len self) v (ip_flag self) (ip_frag_offset self) (ip_ttl self)
     (ip_protocol self) (ip_hdr_chksum self) (ip_src_ip self) (ip_dst_ip self).

Definition set_ip_hdr_chksum (self : t) (v : Z) : t :=
  mk (ip_version self) (ip_hdr_len self) (ip_dscp self) (ip_ecn self)
     (ip_total_len self) (ip_id self) (ip_flag self) (ip_frag_offset self)
     (ip_ttl self) (ip_protocol self) v (ip_src_ip self) (ip_dst_ip self).

Definition set_ip_src_ip (self : t) (v : Z) : t :=
  mk (ip_version self) (ip_hdr_len self) (ip_dscp self) (ip_ecn self)
     (ip_total_len self) (ip_id self) (ip_flag self) (ip_frag_offset self)
     (ip_ttl self) (ip_protocol self) (ip_hdr_chksum self) v (ip_dst_ip self).

Definition set_ip_dst_ip (self : t) (v : Z) : t :=
  mk (ip_version self) (ip_hdr_len self) (ip_dscp self) (ip_ecn self)
     (ip_total_len self) (ip_id self) (ip_flag self) (ip_frag_offset self)
     (ip_ttl self) (ip_protocol self) (ip_hdr_chksum self) (ip_src_ip self) v.

Definition fmt : list code := [B; B; H; H; B; B; B; B; H; L; L].

(** The argument list both [struct.pack] calls of [pack] share; [b0], [b1],
    [b6] and [b7] are computed once, before the first call. *)
Definition pack_args (self : t) (b0 b1 b6 b7 : Z) : list Z :=
  [b0; b1; ip_total_len self; ip_id self; b6; b7; ip_ttl self;
   ip_protocol self; ip_hdr_chksum self; ip_src_ip self; ip_dst_ip self].

(** [pack(self, payload_data_length)]: the object after the call and how the
    call ended. *)
Definition pack (self : t) (payload_data_length : Z) : t * outcome bytes :=
  let self := set_ip_total_len self (ip_hdr_len self * 4 + payload_data_length) in
  let self := set_ip_hdr_chksum self 0 in
  let b0 := Z.lor (Z.shiftl (ip_version self) 4) (ip_hdr_len self) in
  let b1 := Z.lor (Z.shiftl (ip_dscp self) 2) (ip_ecn self) in
  let b6 := Z.lor (Z.shiftl (ip_flag self) 5) (Z.shiftr (ip_frag_offset self) 8) in
  let b7 := Z.land (ip_frag_offset self) 0xff in
  match Struct.pack fmt (pack_args self b0 b1 b6 b7) with
  | None => (self, Exited StructError)
  | Some chksum_data =>
      let self := set_ip_hdr_chksum self (Tools.chksum chksum_data) in
      let self :=
        if ip_id self <? 0xFFFF then set_ip_id self (ip_id self + 1)
        else set_ip_id self 1 in
      match Struct.pack fmt (pack_args self b0 b1 b6 b7) with
      | None => (self, Exited StructError)
      | Some header => (self, Returned header)
      end
  end.

(** Consecutive calls [pack(n)], one for each [n] of [lens], with nothing
    else touching the object in between: the object after the last call, or
    [None] once a call does not return. *)
Fixpoint packs (self : t) (lens : list Z) : option t :=
  match lens with
  | [] => Some self
  | n :: lens' =>
      match pack self n with
      | (self', Returned _) => packs self' lens'
      | _ => None
      end
  end.

(** Every attribute that [pack] reads fits the width that the comments of
    [__init__] give it ([ip_total_len] and [ip_hdr_chksum] are overwritten
    before they are read). *)
Definition in_range (self : t) : Prop :=
  0 <= ip_version self < 2 ^ 4 /\
  0 <= ip_hdr_len self < 2 ^ 4 /\
  0 <= ip_dscp self < 2 ^ 6 /\
  0 <= ip_ecn self < 2 ^ 2 /\
  0 <= ip_id self < 2 ^ 16 /\
  0 <= ip_flag self < 2 ^ 3 /\
  0 <= ip_frag_offset self < 2 ^ 13 /\
  0 <= ip_ttl self < 2 ^ 8 /\
  0 <= ip_protocol self < 2 ^ 8 /\
  0 <= ip_src_ip self < 2 ^ 32 /\
  0 <= ip_dst_ip self < 2 ^ 32.

End IPGenerator.

(** ** tcp_generator.py *)

Module TCPGenerator.

Import Struct.

(** [TCPGenerator] inherits from [IPGenerator]: one object carries the
    attributes of both classes, [ip] being the inherited ones. *)
Record t := mk {
  ip : IPGenerator.t;
  tcp_src_port : Z;
  tcp_dst_port : Z;
  tcp_sqn : Z;
  tcp_ack : Z;
  tcp_hdr_length : Z;
  tcp_reserved : Z;
  tcp_flag_ns : Z;
  tcp_flag_cwr : Z;
  tcp_flag_ece : Z;
  tcp_flag_urg : Z;
  tcp_flag_ack : Z;
  tcp_flag_psh : Z;
  tcp_flag_rst : Z;
  tcp_flag_syn : Z;
  tcp_flag_fin : Z;
  tcp_win_size : Z;
  tcp_hdr_chksum : Z;
  tcp_urg_pntr : Z;
  tcp_opts : Z;
  payload : bytes
}.

(** [__init__(self, payload)]; [sqn] is the value drawn from [random]. *)
Definition init (payload : bytes) (sqn : Z) : t :=
  {| ip := IPGenerator.init Constants.TCP;
     tcp_src_port := 0; tcp_dst_port := 0; tcp_sqn := sqn; tcp_ack := 0;
     tcp_hdr_length := 5; tcp_reserved := 0; tcp_flag_ns := 0;
     tcp_flag_cwr := 0; tcp_flag_ece := 0; tcp_flag_urg := 0;
     tcp_flag_ack := 0; tcp_flag_psh := 0; tcp_flag_rst := 0;
     tcp_flag_syn := 0; tcp_flag_fin := 0; tcp_win_size := 65535;
     tcp_hdr_chksum := 0; tcp_urg_pntr := 0; tcp_opts := 0;
     payload := payload |}.

Definition set_ip (self : t) (v : IPGenerator.t) : t :=
  mk v (tcp_src_port self) (tcp_dst_port self) (tcp_sqn self) (tcp_ack self)
     (tcp_hdr_length self) (tcp_reserved self) (tcp_flag_ns self)
     (tcp_flag_cwr self) (tcp_flag_ece self) (tcp_flag_urg self)
     (tcp_flag_ack self) (tcp_flag_psh self) (tcp_flag_rst self)
     (tcp_flag_syn self) (tcp_flag_fin self) (tcp_win_size self)
     (tcp_hdr_chksum self) (tcp_urg_pntr self) (tcp_opts self) (payload self).

Definition set_tcp_hdr_chksum (self : t) (v : Z) : t :=
  mk (ip self) (tcp_src_port self) (tcp_dst_port self) (tcp_sqn self)
     (tcp_ack self) (tcp_hdr_length self) (tcp_reserved self)
     (tcp_flag_ns self) (tcp_flag_cwr self) (tcp_flag_ece self)
     (tcp_flag_urg self) (tcp_flag_ack self) (tcp_flag_psh self)
     (tcp_flag_rst self) (tcp_flag_syn self) (tcp_flag_fin self)
     (tcp_win_size self) v (tcp_urg_pntr self) (tcp_opts self) (payload self).

Definition set_tcp_opts (self : t) (v : Z) : t :=
  mk (ip self) (tcp_src_port self) (tcp_dst_port self) (tcp_sqn self)
     (tcp_ack self) (tcp_hdr_length self) (tcp_reserved self)
     (tcp_flag_ns self) (tcp_flag_cwr self) (tcp_flag_ece self)
     (tcp_flag_urg self) (tcp_flag_ack self) (tcp_flag_psh self)
     (tcp_flag_rst self) (tcp_flag_syn self) (tcp_flag_fin self)
     (tcp_win_size self) (tcp_hdr_chksum self) (tcp_urg_pntr self) v
     (payload self).

(** [set_src_port(self, port)] and [set_dst_port(self, port)]. *)
Definition set_src_port (self : t) (port : Z) : t :=
  mk (ip self) port (tcp_dst_port self) (tcp_sqn self)
     (tcp_ack self) (tcp_hdr_length self) (tcp_reserved self)
     (tcp_flag_ns self) (tcp_flag_cwr self) (tcp_flag_ece self)
     (tcp_flag_urg self) (tcp_flag_ack self) (tcp_flag_psh self)
     (tcp_flag_rst self) (tcp_flag_syn self) (tcp_flag_fin self)
     (tcp_win_size self) (tcp_hdr_chksum self) (tcp_urg_pntr self)
     (tcp_opts self) (payload self).

Definition set_dst_port (self : t) (port : Z) : t :=
  mk (ip self) (tcp_src_port self) port (tcp_sqn self)
     (tcp_ack self) (tcp_hdr_length self) (tcp_reserved self)
     (tcp_flag_ns self) (tcp_flag_cwr self) (tcp_flag_ece self)
     (tcp_flag_urg self) (tcp_flag_ack self) (tcp_flag_psh self)
     (tcp_flag_rst self) (tcp_flag_syn self) (tcp_flag_fin self)
     (tcp_win_size self) (tcp_hdr_chksum self) (tcp_urg_pntr self)
     (tcp_opts self) (payload self).

(** Every attribute that [pack] packs fits the width that the comments of
    [__init__] give it; [tcp_reserved] and [tcp_hdr_chksum] are left out,
    [pack] reads neither. *)
Definition in_range (self : t) : Prop :=
  0 <= tcp_src_port self < 2 ^ 16 /\
  0 <= tcp_dst_port self < 2 ^ 16 /\
  0 <= tcp_sqn self < 2 ^ 32 /\
  0 <= tcp_ack self < 2 ^ 32 /\
  0 <= tcp_hdr_length self < 2 ^ 4 /\
  0 <= tcp_flag_ns self < 2 /\
  0 <= tcp_flag_cwr self < 2 /\
  0 <= tcp_flag_ece self < 2 /\
  0 <= tcp_flag_urg self < 2 /\
  0 <= tcp_flag_ack self < 2 /\
  0 <= tcp_flag_psh self < 2 /\
  0 <= tcp_flag_rst self < 2 /\
  0 <= tcp_flag_syn self < 2 /\
  0 <= tcp_flag_fin self < 2 /\
  0 <= tcp_win_size self < 2 ^ 16 /\
  0 <= tcp_urg_pntr self < 2 ^ 16.

Definition pseudo_fmt : list code := [I; I; B; B; H].
Definition fmt : list code := [H; H; I; I; B; B; H; H; H].

Definition pack_args (self : t) (byte13 byte14 : Z) : list Z :=
  [tcp_src_port self; tcp_dst_port self; tcp_sqn self; tcp_ack self;
   byte13; byte14; tcp_win_size self; tcp_hdr_chksum self; tcp_urg_pntr self].

(** What [except Exception] makes of the end of the [try] body: an
    exception is caught and the handler exits; [SystemExit] from the
    inherited [pack] passes through. *)
Definition handler {A} (r : outcome A) : outcome A :=
  match r with
  | Raised e => Exited e
  | r => r
  end.

(** [pack(self)]. *)
Definition pack (self : t) : t * outcome bytes :=
  let self := set_tcp_hdr_chksum self 0 in
  if negb (tcp_opts self =? 0) then (self, handler (Raised CannotHandleOptions))
  else
    let byte13 := Z.lor (Z.shiftl (tcp_hdr_length self) 4) (tcp_flag_ns self) in
    let byte14 := tcp_flag_cwr self in
    let byte14 := Z.lor (Z.shiftl byte14 1) (tcp_flag_ece self) in
    let byte14 := Z.lor (Z.shiftl byte14 1) (tcp_flag_urg self) in
    let byte14 := Z.lor (Z.shiftl byte14 1) (tcp_flag_ack self) in
    let byte14 := Z.lor (Z.shiftl byte14 1) (tcp_flag_psh self) in
    let byte14 := Z.lor (Z.shiftl byte14 1) (tcp_flag_rst self) in
    let byte14 := Z.lor (Z.shiftl byte14 1) (tcp_flag_syn self) in
    let byte14 := Z.lor (Z.shiftl byte14 1) (tcp_flag_fin self) in
    let tcp_len := tcp_hdr_length self * 4 + len (payload self) in
    match Struct.pack pseudo_fmt
            [IPGenerator.ip_src_ip (ip self); IPGenerator.ip_dst_ip (ip self);
             0; IPGenerator.ip_protocol (ip self); tcp_len] with
    | None => (self, handler (Raised StructError))
    | Some psuedo_hdr =>
        match Struct.pack fmt (pack_args self byte13 byte14) with
        | None => (self, handler (Raised StructError))
        | Some chksum_data =>
            let self :=
              set_tcp_hdr_chksum self
                (Tools.chksum (psuedo_hdr ++ chksum_data ++ payload self)) in
            match Struct.pack fmt (pack_args self byte13 byte14) with
            | None => (self, handler (Raised StructError))
            | Some tcp_data =>
                let (ip', r) :=
                  IPGenerator.pack (ip self) (len (tcp_data ++ payload self)) in
                let self := set_ip self ip' in
                match r with
                | Returned ip_data =>
                    (self, Returned (ip_data ++ tcp_data ++ payload self))
                | r => (self, handler r)
                end
            end
        end
    end.

End TCPGenerator.

(** ** icmp_generator.py *)

Module ICMPGenerator.

Import Struct.

(** [ICMPGenerator] inherits from [IPGenerator] as well. *)
Record t := mk {
  ip : IPGenerator.t;
  icmp_type : Z;
  icmp_code : Z;
  icmp_hdr_chksum : Z;
  icmp_opt : Z;
  payload : bytes
}.

(** [__init__(self, type_, payload, code=0)]. *)
Definition init (type_ : Constants.ICMPType) (payload : bytes) (code : Z) : t :=
  {| ip := IPGenerator.init Constants.ICMP;
     icmp_type := Constants.ICMPType_value type_; icmp_code := code;
     icmp_hdr_chksum := 0; icmp_opt := 0; payload := payload |}.

Definition set_ip (self : t) (v : IPGenerator.t) : t :=
  mk v (icmp_type self) (icmp_code self) (icmp_hdr_chksum self)
     (icmp_opt self) (payload self).

Definition set_icmp_hdr_chksum (self : t) (v : Z) : t :=
  mk (ip self) (icmp_type self) (icmp_code self) v (icmp_opt self)
     (payload self).

Definition set_icmp_opt (self : t) (v : Z) : t :=
  mk (ip self) (icmp_type self) (icmp_code self) (icmp_hdr_chksum self) v
     (payload self).

Definition fmt : list code := [B; B; H; I].

(** The attributes [pack] packs fit the widths [__init__] gives them. *)
Definition in_range (self : t) : Prop :=
  0 <= icmp_type self < 2 ^ 8 /\
  0 <= icmp_code self < 2 ^ 8 /\
  0 <= icmp_opt self < 2 ^ 32.

Definition pack_args (self : t) : list Z :=
  [icmp_type self; icmp_code self; icmp_hdr_chksum self; icmp_opt self].

(** [pack(self)]: no [try] here, a [struct.error] reaches the caller. *)
Definition pack (self : t) : t * outcome bytes :=
  let self := set_icmp_hdr_chksum self 0 in
  match Struct.pack fmt (pack_args self) with
  | None => (self, Raised StructError)
  | Some hdr =>
      let chksum_data := hdr ++ payload self in
      let self := set_icmp_hdr_chksum self (Tools.chksum chksum_data) in
      match Struct.pack fmt (pack_args self) with
      | None => (self, Raised StructError)
      | Some hdr =>
          let icmp_data := hdr ++ payload self in
          let (ip', r) := IPGenerator.pack (ip self) (len icmp_data) in
          let self := set_ip self ip' in
          match r with
          | Returned ip_data => (self, Returned (ip_data ++ icmp_data))
          | r => (self, r)
          end
      end
  end.

End ICMPGenerator.

(** [Ping] adds no attribute to [ICMPGenerator]. *)
Module Ping.

(** [__init__(self, message)]; [id_] is the value of
    [random.randrange(0xffff)]. *)
Definition init (message : bytes) (id_ : Z) : ICMPGenerator.t :=
  let message :=
    if negb (len message mod 2 =? 0) then message ++ [x20] else message in
  let self := ICMPGenerator.init Constants.ECHO_REQUEST message 0 in
  ICMPGenerator.set_icmp_opt self (Z.shiftl id_ 16).

(** [pack(self)]. *)
Definition pack (self : ICMPGenerator.t) : ICMPGenerator.t * outcome bytes :=
  let self := ICMPGenerator.set_icmp_opt self (ICMPGenerator.icmp_opt self + 1) in
  ICMPGenerator.pack self.

(** The two halves of the option field of an echo message. *)
Definition identifier (self : ICMPGenerator.t) : Z :=
  Z.land (Z.shiftr (ICMPGenerator.icmp_opt self) 16) 0xffff.

Definition sequence_number (self : ICMPGenerator.t) : Z :=
  Z.land (ICMPGenerator.icmp_opt self) 0xffff.

End Ping.

(** ** The IPv4 header layout of RFC 791, read back from bytes *)

Module RFC791.

Record fields := mk {
  version : Z;
  header_length_words : Z;
  dscp : Z;
  ecn : Z;
  total_length : Z;
  identification : Z;
  flags : Z;
  fragment_offset : Z;
  ttl : Z;
  protocol : Z;
  checksum : Z;
  source : Z;
  destination : Z
}.

Definition u8 (h : bytes) (i : nat) : Z := byte_val (nth i h x00).
Definition u16 (h : bytes) (i : nat) : Z := u8 h i * 256 + u8 h (i + 1).
Definition u32 (h : bytes) (i : nat) : Z := u16 h i * 65536 + u16 h (i + 2).

(** byte 0 = version(4)|headerLengthWords(4); byte 1 = dscp(6)|ecn(2);
    bytes 2-3 totalLength; bytes 4-5 identification; bytes 6-7
    flags(3)|fragmentOffset(13); byte 8 ttl; byte 9 protocol; bytes 10-11
    checksum; bytes 12-15 source; bytes 16-19 destination. *)
Definition parse (h : bytes) : fields :=
  {| version := Z.shiftr (u8 h 0) 4;
     header_length_words := Z.land (u8 h 0) 0xf;
     dscp := Z.shiftr (u8 h 1) 2;
     ecn := Z.land (u8 h 1) 0x3;
     total_length := u16 h 2;
     identification := u16 h 4;
     flags := Z.shiftr (u16 h 6) 13;
     fragment_offset := Z.land (u16 h 6) 0x1fff;
     ttl := u8 h 8;
     protocol := u8 h 9;
     checksum := u16 h 10;
     source := u32 h 12;
     destination := u32 h 16 |}.

End RFC791.

(** ** Notions the proofs use *)

(** The integer whose base-256 digits, least significant first, are [ws]. *)
Definition le_val (ws : list Z) : Z :=
  fold_right (fun w acc => w + 256 * acc) 0 ws.

(** [int.from_bytes] resumed from the value [a] of the bytes already read. *)
Definition from_acc (a : Z) (bs : bytes) : Z :=
  fold_left (fun acc b => acc * 256 + byte_val b) bs a.

(** [s] is the 16-bit one's-complement representative of the non-negative
    integer [n]: congruent to [n] modulo [0xFFFF], and zero only for
    [n = 0]. *)
Definition oc_rel (s n : Z) : Prop :=
  0 <= s <= 0xFFFF /\ (exists k, n = s + 0xFFFF * k) /\ (s = 0 <-> n = 0).

(** The identifier [IPGenerator.pack] leaves for the next call. *)
Definition next_id (id : Z) : Z := if id <? 0xFFFF then id + 1 else 1.

(** The arguments [IPGenerator.pack] hands to [struct.pack] when the total
    length, identifier and checksum are [tl], [id] and [ck]. *)
Definition ip_args (self : IPGenerator.t) (tl id ck : Z) : list Z :=
  [Z.lor (Z.shiftl (IPGenerator.ip_version self) 4) (IPGenerator.ip_hdr_len self);
   Z.lor (Z.shiftl (IPGenerator.ip_dscp self) 2) (IPGenerator.ip_ecn self);
   tl; id;
   Z.lor (Z.shiftl (IPGenerator.ip_flag self) 5)
         (Z.shiftr (IPGenerator.ip_frag_offset self) 8);
   Z.land (IPGenerator.ip_frag_offset self) 0xff;
   IPGenerator.ip_ttl self; IPGenerator.ip_protocol self; ck;
   IPGenerator.ip_src_ip self; IPGenerator.ip_dst_ip self].

(** [self] with those three attributes replaced. *)
Definition ip_with (self : IPGenerator.t) (tl id ck : Z) : IPGenerator.t :=
  IPGenerator.mk (IPGenerator.ip_version self) (IPGenerator.ip_hdr_len self)
    (IPGenerator.ip_dscp self) (IPGenerator.ip_ecn self) tl id
    (IPGenerator.ip_flag self) (IPGenerator.ip_frag_offset self)
    (IPGenerator.ip_ttl self) (IPGenerator.ip_protocol self) ck
    (IPGenerator.ip_src_ip self) (IPGenerator.ip_dst_ip self).

(** Two outputs agree at every position but bytes 4-5 and 10-11. *)
Definition same_but_id_and_chksum (out1 out2 : bytes) : Prop :=
  length out1 = length out2 /\
  forall k : nat,
    k <> 4%nat -> k <> 5%nat -> k <> 10%nat -> k <> 11%nat ->
    nth_error out1 k = nth_error out2 k.

Import Tools.

(** ** The TCP header layout of RFC 793 and the ICMP layout of RFC 792 *)

Module RFC793.

Record fields := mk {
  source_port : Z;
  destination_port : Z;
  sequence_number : Z;
  acknowledgment_number : Z;
  data_offset : Z;
  reserved : Z;
  ns : Z;
  cwr : Z;
  ece : Z;
  urg : Z;
  ack : Z;
  psh : Z;
  rst : Z;
  syn : Z;
  fin : Z;
  window : Z;
  checksum : Z;
  urgent_pointer : Z
}.

Definition bit (v : Z) (i : Z) : Z := Z.land (Z.shiftr v i) 1.

(** Ports, 32-bit sequence and acknowledgment numbers, the byte
    headerLengthWords(4)|reserved(3)|NS(1), the byte of the eight flags CWR
    to FIN, window, checksum, urgent pointer. *)
Definition parse (h : bytes) : fields :=
  {| source_port := RFC791.u16 h 0;
     destination_port := RFC791.u16 h 2;
     sequence_number := RFC791.u32 h 4;
     acknowledgment_number := RFC791.u32 h 8;
     data_offset := Z.shiftr (RFC791.u8 h 12) 4;
     reserved := Z.land (Z.shiftr (RFC791.u8 h 12) 1) 0x7;
     ns := bit (RFC791.u8 h 12) 0;
     cwr := bit (RFC791.u8 h 13) 7;
     ece := bit (RFC791.u8 h 13) 6;
     urg := bit (RFC791.u8 h 13) 5;
     ack := bit (RFC791.u8 h 13) 4;
     psh := bit (RFC791.u8 h 13) 3;
     rst := bit (RFC791.u8 h 13) 2;
     syn := bit (RFC791.u8 h 13) 1;
     fin := bit (RFC791.u8 h 13) 0;
     window := RFC791.u16 h 14;
     checksum := RFC791.u16 h 16;
     urgent_pointer := RFC791.u16 h 18 |}.

End RFC793.

Module RFC792.

Record fields := mk {
  type : Z;
  code : Z;
  checksum : Z;
  option : Z;
  data : bytes
}.

(** type(8), code(8), checksum(16), the 4-byte option field, payload. *)
Definition parse (m : bytes) : fields :=
  {| type := RFC791.u8 m 0;
     code := RFC791.u8 m 1;
     checksum := RFC791.u16 m 2;
     option := RFC791.u32 m 4;
     data := skipn 8 m |}.

End RFC792.

(** The one's-complement representative of a non-negative integer as a
    function: 0 for 0, otherwise the value in [[1, 0xFFFF]] congruent to it
    modulo [0xFFFF]. *)
Definition oc_norm (n : Z) : Z :=
  if n =? 0 then 0 else (n - 1) mod 0xFFFF + 1.

(** The two bytes [TCPGenerator.pack] builds from the header length and
    the nine flags, and the arguments of its pseudo header. *)
Definition tcp_byte13 (self : TCPGenerator.t) : Z :=
  Z.lor (Z.shiftl (TCPGenerator.tcp_hdr_length self) 4)
        (TCPGenerator.tcp_flag_ns self).

Definition tcp_byte14 (self : TCPGenerator.t) : Z :=
  let byte14 := TCPGenerator.tcp_flag_cwr self in
  let byte14 := Z.lor (Z.shiftl byte14 1) (TCPGenerator.tcp_flag_ece self) in
  let byte14 := Z.lor (Z.shiftl byte14 1) (TCPGenerator.tcp_flag_urg self) in
  let byte14 := Z.lor (Z.shiftl byte14 1) (TCPGenerator.tcp_flag_ack self) in
  let byte14 := Z.lor (Z.shiftl byte14 1) (TCPGenerator.tcp_flag_psh self) in
  let byte14 := Z.lor (Z.shiftl byte14 1) (TCPGenerator.tcp_flag_rst self) in
  let byte14 := Z.lor (Z.shiftl byte14 1) (TCPGenerator.tcp_flag_syn self) in
  Z.lor (Z.shiftl byte14 1) (TCPGenerator.tcp_flag_fin self).

Definition tcp_args (self : TCPGenerator.t) (ck : Z) : list Z :=
  [TCPGenerator.tcp_src_port self; TCPGenerator.tcp_dst_port self;
   TCPGenerator.tcp_sqn self; TCPGenerator.tcp_ack self;
   tcp_byte13 self; tcp_byte14 self; TCPGenerator.tcp_win_size self; ck;
   TCPGenerator.tcp_urg_pntr self].

Definition tcp_pseudo_args (self : TCPGenerator.t) : list Z :=
  [IPGenerator.ip_src_ip (TCPGenerator.ip self);
   IPGenerator.ip_dst_ip (TCPGenerator.ip self); 0;
   IPGenerator.ip_protocol (TCPGenerator.ip self);
   TCPGenerator.tcp_hdr_length self * 4 + len (TCPGenerator.payload self)].

Definition icmp_args (self : ICMPGenerator.t) (ck : Z) : list Z :=
  [ICMPGenerator.icmp_type self; ICMPGenerator.icmp_code self; ck;
   ICMPGenerator.icmp_opt self].

(** ** Proof steps shared by the [pack] lemmas *)

(** Case analysis on what the head [match] of a [pack] body inspects. *)
Ltac head_case E :=
  lazymatch goal with
  | |- match ?x with _ => _ end = _ -> _ => destruct x eqn:E
  | |- (let (_, _) := ?x in _) = _ -> _ => destruct x eqn:E
  | |- (if ?x then _ else _) = _ -> _ => destruct x eqn:E
  end.

(** Unfold [TCPGenerator.pack] down to its [struct.pack], [chksum] and
    [IPGenerator.pack] calls. *)
Ltac tcp_unfold :=
  unfold TCPGenerator.pack, TCPGenerator.pack_args,
    TCPGenerator.set_tcp_hdr_chksum, TCPGenerator.set_ip;
  cbn -[Struct.pack chksum IPGenerator.pack Z.lor Z.shiftl Z.mul Z.add len
        TCPGenerator.fmt TCPGenerator.pseudo_fmt app].

(** The same for [ICMPGenerator.pack]. *)
Ltac icmp_unfold :=
  unfold ICMPGenerator.pack, ICMPGenerator.pack_args,
    ICMPGenerator.set_icmp_hdr_chksum, ICMPGenerator.set_ip;
  cbn -[Struct.pack chksum IPGenerator.pack Z.add len ICMPGenerator.fmt app].

(** * Properties *)

(** ** Bytes and arithmetic *)

Lemma byte_val_range (b : byte) : 0 <= byte_val b <= 255.
Proof.
  unfold byte_val. pose proof (Byte.to_N_bounded b). lia.
Qed.

Lemma byte_val_of_Z (z : Z) : byte_val (byte_of_Z z) = z mod 256.
Proof.
  unfold byte_val, byte_of_Z.
  pose proof (Z.mod_pos_bound z 256 ltac:(lia)) as Hm.
  destruct (Byte.of_N (Z.to_N (z mod 256))) as [b|] eqn:E.
  - apply Byte.to_of_N in E. rewrite E. lia.
  - pose proof (Byte.to_of_N_option_map (Z.to_N (z mod 256))) as Ho.
    rewrite E in Ho. simpl in Ho.
    destruct (N.leb_spec (Z.to_N (z mod 256)) 255); [discriminate | lia].
Qed.

Lemma shiftr_16 (c : Z) : Z.shiftr c 16 = c / 65536.
Proof. now rewrite Z.shiftr_div_pow2 by lia. Qed.

Lemma shiftr_8 (c : Z) : Z.shiftr c 8 = c / 256.
Proof. now rewrite Z.shiftr_div_pow2 by lia. Qed.

Lemma land_ffff (c : Z) : Z.land c 0xffff = c mod 65536.
Proof. change 0xffff with (Z.ones 16). now rewrite Z.land_ones by lia. Qed.

Lemma land_ff (c : Z) : Z.land c 0xff = c mod 256.
Proof. change 0xff with (Z.ones 8). now rewrite Z.land_ones by lia. Qed.

(** Bits of [lo] below bit [k] and bits of [hi] shifted above it do not
    meet, so [|] adds. *)
Lemma lor_shiftl_add (hi lo k : Z) :
  0 <= k -> 0 <= lo < 2 ^ k -> Z.lor (Z.shiftl hi k) lo = hi * 2 ^ k + lo.
Proof.
  intros Hk Hlo.
  rewrite <- Z.shiftl_mul_pow2 by lia.
  assert (Hd : Z.land (Z.shiftl hi k) lo = 0).
  { apply Z.bits_inj'; intros n Hn. rewrite Z.land_spec, Z.bits_0.
    destruct (Z.lt_ge_cases n k) as [Hlt | Hge].
    - rewrite Z.shiftl_spec_low by lia. reflexivity.
    - destruct (Z.eq_dec lo 0) as [-> | Hne].
      + rewrite Z.bits_0. apply andb_false_r.
      + rewrite (Z.bits_above_log2 lo n), andb_false_r; try reflexivity; try lia.
        apply Z.lt_le_trans with k; [apply Z.log2_lt_pow2; lia | lia]. }
  rewrite <- Z.lxor_lor, <- Z.add_nocarry_lxor by exact Hd. reflexivity.
Qed.

(** ** [_carry_around_add] *)

Lemma carry_around_add_cases (a b : Z) :
  0 <= a <= 0xFFFF -> 0 <= b <= 0xFFFF ->
  _carry_around_add a b = if a + b <? 0x10000 then a + b else a + b - 0xFFFF.
Proof.
  intros Ha Hb. unfold _carry_around_add.
  rewrite shiftr_16, land_ffff.
  destruct (Z.ltb_spec (a + b) 0x10000); Z.div_mod_to_equations; lia.
Qed.

Lemma carry_around_add_range (a b : Z) :
  0 <= a <= 0xFFFF -> 0 <= b <= 0xFFFF -> 0 <= _carry_around_add a b <= 0xFFFF.
Proof.
  intros Ha Hb. rewrite carry_around_add_cases by assumption.
  destruct (Z.ltb_spec (a + b) 0x10000); lia.
Qed.

Lemma fold_carry_once (a b : Z) :
  0 <= a <= 0xFFFF -> 0 <= b <= 0xFFFF ->
  RFC1071.fold_carry (a + b) = _carry_around_add a b.
Proof.
  intros Ha Hb.
  pose proof (carry_around_add_range a b Ha Hb) as Hr.
  pose proof (carry_around_add_cases a b Ha Hb) as Hc.
  rewrite RFC1071.fold_carry_equation_1.
  destruct (Z_lt_dec (a + b) 0x10000) as [Hlt | Hge];
    autorewrite with fold_carry.
  - rewrite Hc. destruct (Z.ltb_spec (a + b) 0x10000); lia.
  - fold (_carry_around_add a b).
    destruct (Z_lt_dec (_carry_around_add a b) 0x10000);
      autorewrite with fold_carry; [reflexivity | lia].
Qed.

Lemma oc_rel_zero : oc_rel 0 0.
Proof. repeat split; try lia. exists 0. lia. Qed.

Lemma oc_rel_unique (s s' n : Z) : oc_rel s n -> oc_rel s' n -> s = s'.
Proof.
  intros (Hs & (k & Hk) & Hz) (Hs' & (k' & Hk') & Hz').
  destruct (Z.eq_dec n 0) as [Hn | Hn]; [lia |].
  assert (s <> 0) by tauto. assert (s' <> 0) by tauto. lia.
Qed.

(** One addition step: the sum follows the integer it stands for. *)
Lemma oc_rel_step (s n w m : Z) :
  oc_rel s n -> 0 <= n -> 0 <= w <= 0xFFFF -> 0 <= m ->
  (exists k, m = n + w + 0xFFFF * k) -> (m = 0 <-> n + w = 0) ->
  oc_rel (_carry_around_add s w) m.
Proof.
  intros (Hs & (k & Hk) & Hz) Hn Hw Hm (j & Hj) Hmz.
  rewrite carry_around_add_cases by assumption.
  destruct (Z.ltb_spec (s + w) 0x10000); (split; [lia | split]).
  - exists (k + j). lia.
  - lia.
  - exists (k + j + 1). lia.
  - lia.
Qed.

(** ** The word loop of [chksum] *)

Lemma from_acc_cons (a : Z) (b : byte) (bs : bytes) :
  from_acc a (b :: bs) = from_acc (a * 256 + byte_val b) bs.
Proof. reflexivity. Qed.

Lemma from_acc_bound (bs : bytes) (a : Z) :
  0 <= a -> 0 <= from_acc a bs < (a + 1) * 256 ^ Z.of_nat (length bs).
Proof.
  revert a. induction bs as [| b bs IH]; intros a Ha.
  - cbn. lia.
  - pose proof (byte_val_range b) as Hb.
    specialize (IH (a * 256 + byte_val b) ltac:(lia)).
    rewrite from_acc_cons.
    replace (Z.of_nat (length (b :: bs))) with (Z.of_nat (length bs) + 1)
      by (cbn [length]; lia).
    rewrite Z.pow_add_r by lia.
    assert (0 < 256 ^ Z.of_nat (length bs)) by (apply Z.pow_pos_nonneg; lia).
    nia.
Qed.

Lemma int_from_bytes_bound (bs : bytes) :
  0 <= int_from_bytes bs < 256 ^ Z.of_nat (length bs).
Proof.
  pose proof (from_acc_bound bs 0 ltac:(lia)) as H.
  unfold int_from_bytes. fold (from_acc 0 bs). lia.
Qed.

(** The words already collected are only ever appended to. *)
Lemma break_words_acc (fuel : nat) (h : Z) (acc : list Z) :
  break_words fuel h acc =
  (fst (break_words fuel h []), acc ++ snd (break_words fuel h [])).
Proof.
  revert h acc. induction fuel as [| fuel IH]; intros h acc; simpl.
  - now rewrite app_nil_r.
  - destruct (0 <? h).
    + rewrite (IH _ (acc ++ _)), (IH _ [_]). simpl.
      now rewrite <- app_assoc.
    + simpl. now rewrite app_nil_r.
Qed.

(** With [fuel] iterations allowed and [h] below [256 ^ fuel], the loop
    stops because [header > 0] fails, and the words are the base-256 digits
    of [h]. *)
Lemma le_val_cons (w : Z) (ws : list Z) : le_val (w :: ws) = w + 256 * le_val ws.
Proof. reflexivity. Qed.

Lemma break_words_digits (fuel : nat) (h : Z) :
  0 <= h < 256 ^ Z.of_nat fuel ->
  fst (break_words fuel h []) = 0 /\
  le_val (snd (break_words fuel h [])) = h /\
  Forall (fun w => 0 <= w <= 255) (snd (break_words fuel h [])).
Proof.
  revert h. induction fuel as [| fuel IH]; intros h Hh.
  - cbn in *. repeat split; try lia. constructor.
  - cbn [break_words]. destruct (Z.ltb_spec 0 h) as [Hpos | Hz].
    + rewrite break_words_acc. cbn [fst snd app].
      rewrite shiftr_8, land_ff.
      replace (Z.of_nat (S fuel)) with (Z.of_nat fuel + 1) in Hh by lia.
      rewrite Z.pow_add_r in Hh by lia.
      assert (Hq : 0 <= h / 256 < 256 ^ Z.of_nat fuel).
      { split; [apply Z.div_pos; lia | apply Z.div_lt_upper_bound; lia]. }
      destruct (IH _ Hq) as (H0 & Hv & Hr).
      repeat split.
      * exact H0.
      * rewrite le_val_cons, Hv.
        pose proof (Z.div_mod h 256 ltac:(lia)). lia.
      * constructor; [| exact Hr].
        pose proof (Z.mod_pos_bound h 256 ltac:(lia)). lia.
    + cbn [fst snd]. repeat split; try (cbn; lia). constructor.
Qed.

(** The loop condition, not the bound, ends the loop in [chksum]. *)
Lemma break_words_exits (header : bytes) :
  fst (break_words (length header) (int_from_bytes header) []) = 0.
Proof. apply break_words_digits, int_from_bytes_bound. Qed.

(** Once the loop has stopped by its condition, more iterations change
    nothing. *)
Lemma break_words_more_fuel (fuel extra : nat) (h : Z) (acc : list Z) :
  fst (break_words fuel h acc) <= 0 ->
  break_words (fuel + extra) h acc = break_words fuel h acc.
Proof.
  revert h acc. induction fuel as [| fuel IH]; intros h acc H; simpl in *.
  - destruct extra; simpl; [reflexivity |].
    destruct (Z.ltb_spec 0 h); [lia | reflexivity].
  - destruct (0 <? h); [apply IH; exact H | reflexivity].
Qed.

Lemma le_val_app (ws vs : list Z) :
  le_val (ws ++ vs) = le_val ws + 256 ^ Z.of_nat (length ws) * le_val vs.
Proof.
  induction ws as [| w ws IH].
  - change (le_val vs = 0 + 1 * le_val vs). lia.
  - cbn [app]. rewrite !le_val_cons, IH.
    replace (Z.of_nat (length (w :: ws))) with (Z.of_nat (length ws) + 1)
      by (cbn [length]; lia).
    rewrite Z.pow_add_r by lia. lia.
Qed.

Lemma le_val_nonneg (ws : list Z) :
  Forall (fun w => 0 <= w <= 255) ws -> 0 <= le_val ws.
Proof.
  induction 1 as [| w ws Hw _ IH]; [cbn; lia | rewrite le_val_cons; lia].
Qed.

Lemma mod2_eqb_1 (n : nat) : (n mod 2 =? 1)%nat = negb (Nat.even n).
Proof.
  rewrite <- Nat.bit0_mod, Nat.bit0_odd, <- Nat.negb_even.
  now destruct (Nat.even n).
Qed.

Lemma pad_even_length (ws : list Z) : Nat.even (length (pad_even ws)) = true.
Proof.
  unfold pad_even. rewrite mod2_eqb_1.
  destruct (Nat.even (length ws)) eqn:E; cbn [negb]; [exact E |].
  rewrite length_app, Nat.even_add, E. reflexivity.
Qed.

Lemma pad_even_val (ws : list Z) : le_val (pad_even ws) = le_val ws.
Proof.
  unfold pad_even. destruct (_ =? _)%nat; [| reflexivity].
  rewrite le_val_app, le_val_cons. cbn [le_val fold_right]. lia.
Qed.

Lemma pad_even_range (ws : list Z) :
  Forall (fun w => 0 <= w <= 255) ws ->
  Forall (fun w => 0 <= w <= 255) (pad_even ws).
Proof.
  intros H. unfold pad_even. destruct (_ =? _)%nat; [| exact H].
  apply Forall_app. split; [exact H |]. constructor; [lia | constructor].
Qed.

(** What [chksum] hands to its summing loop. *)
Lemma chksum_words_spec (header : bytes) :
  Nat.even (length (chksum_words header)) = true /\
  le_val (chksum_words header) = int_from_bytes header /\
  Forall (fun w => 0 <= w <= 255) (chksum_words header).
Proof.
  unfold chksum_words.
  destruct (break_words_digits _ _ (int_from_bytes_bound header)) as (_ & Hv & Hr).
  split; [apply pad_even_length |].
  split; [now rewrite pad_even_val | now apply pad_even_range].
Qed.

(** ** The summing loop *)

Lemma list_pair_ind (A : Type) (P : list A -> Prop) :
  P [] -> (forall a, P [a]) -> (forall a b l, P l -> P (a :: b :: l)) ->
  forall l, P l.
Proof.
  intros Hnil Hone Hpair.
  fix rec 1. intros [| a [| b l]].
  - exact Hnil.
  - apply Hone.
  - apply Hpair, rec.
Qed.

Lemma word_16_bit_range (w0 w1 : Z) :
  0 <= w0 <= 255 -> 0 <= w1 <= 255 ->
  Z.shiftl w1 8 + w0 = w1 * 256 + w0 /\ 0 <= Z.shiftl w1 8 + w0 <= 0xFFFF.
Proof.
  intros H0 H1. rewrite Z.shiftl_mul_pow2 by lia. change (2 ^ 8) with 256. lia.
Qed.

Lemma oc_rel_cong (s m m' : Z) :
  oc_rel s m -> (exists k, m' = m + 0xFFFF * k) -> (m = 0 <-> m' = 0) ->
  oc_rel s m'.
Proof.
  intros (Hs & (k & Hk) & Hz) (j & Hj) Hmz.
  split; [exact Hs | split].
  - exists (k + j). lia.
  - tauto.
Qed.

(** The running sum stands for the digits read so far. *)
Lemma sum_words_rel (ws : list Z) :
  Nat.even (length ws) = true -> Forall (fun w => 0 <= w <= 255) ws ->
  forall s n, 0 <= n -> oc_rel s n -> oc_rel (sum_words ws s) (n + le_val ws).
Proof.
  induction ws as [| w | w0 w1 rest IH] using list_pair_ind;
    intros Hev Hr s n Hn Hs.
  - cbn. now rewrite Z.add_0_r.
  - discriminate.
  - inversion Hr as [| ? ? Hw0 Hr1]; subst.
    inversion Hr1 as [| ? ? Hw1 Hr2]; subst.
    destruct (word_16_bit_range w0 w1 Hw0 Hw1) as (Hw & Hwr).
    pose proof (le_val_nonneg rest Hr2) as Hl.
    cbn [sum_words]. rewrite !le_val_cons.
    revert Hw Hwr. generalize (Z.shiftl w1 8 + w0). intros word Hw Hwr.
    assert (Hstep : oc_rel (_carry_around_add s word) (n + word)).
    { apply oc_rel_step with (n := n); try assumption; try lia.
      exists 0. lia. }
    specialize (IH Hev Hr2 (_carry_around_add s word) (n + word) ltac:(lia) Hstep).
    apply oc_rel_cong with (m := n + word + le_val rest).
    + exact IH.
    + exists (le_val rest). lia.
    + lia.
Qed.

Lemma sum_trace_range (ws : list Z) :
  Forall (fun w => 0 <= w <= 255) ws ->
  forall s, 0 <= s <= 0xFFFF ->
  Forall (fun s' => 0 <= s' <= 0xFFFF) (sum_trace ws s).
Proof.
  induction ws as [| w | w0 w1 rest IH] using list_pair_ind; intros Hr s Hs.
  - repeat constructor; lia.
  - repeat constructor; lia.
  - inversion Hr as [| ? ? Hw0 Hr1]; subst.
    inversion Hr1 as [| ? ? Hw1 Hr2]; subst.
    destruct (word_16_bit_range w0 w1 Hw0 Hw1) as (_ & Hwr).
    cbn [sum_trace]. constructor; [exact Hs |].
    apply IH; [exact Hr2 |]. now apply carry_around_add_range.
Qed.

(** The trace ends with the value the loop returns. *)
Lemma sum_trace_last (ws : list Z) :
  forall s d, last (sum_trace ws s) d = sum_words ws s.
Proof.
  induction ws as [| w | w0 w1 rest IH] using list_pair_ind; intros s d;
    try reflexivity.
  cbn [sum_trace sum_words]. rewrite <- (IH _ d).
  destruct (sum_trace rest _) eqn:E; [| reflexivity].
  destruct rest as [| ? [| ? ?]]; discriminate.
Qed.

(** ** The reference sum *)

Lemma oc_add_rel (bs : bytes) :
  Nat.even (length bs) = true ->
  forall s a, 0 <= a -> oc_rel s a ->
  oc_rel (fold_left RFC1071.oc_add (RFC1071.words16 bs) s) (from_acc a bs).
Proof.
  induction bs as [| b | b0 b1 rest IH] using list_pair_ind;
    intros Hev s a Ha Hs.
  - exact Hs.
  - discriminate.
  - pose proof (byte_val_range b0) as H0. pose proof (byte_val_range b1) as H1.
    cbn [RFC1071.words16 fold_left]. rewrite !from_acc_cons.
    apply IH; [exact Hev | lia |].
    unfold RFC1071.oc_add.
    rewrite fold_carry_once by (try apply Hs; lia).
    apply oc_rel_step with (n := a); try assumption; try lia.
    exists a. lia.
Qed.

(** ** Claims about [chksum] *)

Lemma chksum_range (header : bytes) : 0 <= chksum header <= 0xFFFF.
Proof.
  unfold chksum. rewrite land_ffff.
  pose proof (Z.mod_pos_bound (Z.lnot (sum_words (chksum_words header) 0)) 65536).
  lia.
Qed.

(** [chksum] reads its input as one integer, so a leading zero byte is
    invisible to it. *)
Lemma chksum_leading_zero (header : bytes) : chksum (x00 :: header) = chksum header.
Proof.
  unfold chksum, chksum_words.
  change (int_from_bytes (x00 :: header)) with (int_from_bytes header).
  change (length (x00 :: header)) with (S (length header)).
  rewrite <- Nat.add_1_r, break_words_more_fuel; [reflexivity |].
  rewrite break_words_exits. lia.
Qed.

(** C8: [chksum] returns [0xFFFF] on the empty byte sequence and [0x220D] on
    the eight bytes [00 01 f2 03 f4 f5 f6 f7]. *)
Theorem chksum_reference_values :
  chksum [] = 0xFFFF /\
  chksum [x00; x01; xf2; x03; xf4; xf5; xf6; xf7] = 0x220D.
Proof. split; vm_compute; reflexivity. Qed.

(** C3, at an input of odd length: on the three bytes [01 02 03] [chksum]
    returns [0xFDFB], the value it returns for [00 01 02 03], while on
    [01 02 03 00] it returns [0xFBFD], which is the RFC 1071 checksum of
    [01 02 03].  The zero that [chksum] appends to its word list lands at the
    most significant end of the input, not after its last byte. *)
Theorem chksum_odd_length_pads_in_front :
  chksum [x01; x02; x03] = 0xFDFB /\
  chksum [x00; x01; x02; x03] = 0xFDFB /\
  chksum [x01; x02; x03; x00] = 0xFBFD /\
  RFC1071.checksum [x01; x02; x03] = 0xFBFD /\
  chksum [x01; x02; x03] <> chksum ([x01; x02; x03] ++ [x00]).
Proof.
  assert (H3 : chksum [x01; x02; x03] = 0xFDFB) by (vm_compute; reflexivity).
  assert (H4 : chksum [x01; x02; x03; x00] = 0xFBFD) by (vm_compute; reflexivity).
  split; [exact H3 |].
  split; [now rewrite chksum_leading_zero |].
  split; [exact H4 |].
  split.
  - unfold RFC1071.checksum. cbn [RFC1071.words16 fold_left].
    unfold RFC1071.oc_add.
    rewrite !fold_carry_once by (vm_compute; split; discriminate).
    vm_compute. reflexivity.
  - cbn [app]. rewrite H3, H4. discriminate.
Qed.

(** C9: on every byte sequence of even length, [chksum] returns the RFC 1071
    checksum: the complement, masked to 16 bits, of the one's-complement sum
    of the consecutive 16-bit big-endian words of the sequence. *)
Theorem chksum_refines_rfc1071 (header : bytes) :
  Nat.even (length header) = true ->
  chksum header = RFC1071.checksum header.
Proof.
  intros Hev.
  destruct (chksum_words_spec header) as (Hlen & Hval & Hrange).
  pose proof (sum_words_rel _ Hlen Hrange 0 0 ltac:(lia) oc_rel_zero) as Hcode.
  pose proof (oc_add_rel header Hev 0 0 ltac:(lia) oc_rel_zero) as Href.
  rewrite Hval in Hcode. cbn [Z.add] in Hcode.
  unfold chksum, RFC1071.checksum.
  now rewrite (oc_rel_unique _ _ _ Hcode Href).
Qed.

Lemma chksum_refines_rfc1071_witness :
  chksum [x45; x00; x00; x28] = RFC1071.checksum [x45; x00; x00; x28].
Proof. apply (chksum_refines_rfc1071 [x45; x00; x00; x28]). reflexivity. Defined.

(** C10: [chksum] returns a value in [[0, 0xFFFF]]; every value the running
    sum takes is in that range; and on two 16-bit values one
    [_carry_around_add] leaves no carry, so it is the addition that folds
    until no carry remains. *)
Theorem chksum_sum_stays_16_bit (header : bytes) (a b : Z) :
  0 <= a <= 0xFFFF -> 0 <= b <= 0xFFFF ->
  0 <= chksum header <= 0xFFFF /\
  Forall (fun s => 0 <= s <= 0xFFFF) (sum_trace (chksum_words header) 0) /\
  last (sum_trace (chksum_words header) 0) 0 = sum_words (chksum_words header) 0 /\
  0 <= _carry_around_add a b <= 0xFFFF /\
  Z.shiftr (_carry_around_add a b) 16 = 0 /\
  _carry_around_add a b = RFC1071.oc_add a b.
Proof.
  intros Ha Hb.
  pose proof (carry_around_add_range a b Ha Hb) as Hr.
  destruct (chksum_words_spec header) as (_ & _ & Hrange).
  split; [apply chksum_range |].
  split; [| split; [| split; [exact Hr | split]]].
  - apply sum_trace_range; [exact Hrange | lia].
  - apply sum_trace_last.
  - rewrite shiftr_16. apply Z.div_small. lia.
  - unfold RFC1071.oc_add. now rewrite fold_carry_once.
Qed.

Lemma chksum_sum_stays_16_bit_witness :
  0 <= chksum [xff; xff; xff; xff] <= 0xFFFF /\
  _carry_around_add 0xFFFF 0xFFFF = RFC1071.oc_add 0xFFFF 0xFFFF.
Proof.
  destruct (chksum_sum_stays_16_bit [xff; xff; xff; xff] 0xFFFF 0xFFFF)
    as (H1 & _ & _ & _ & _ & H2); [lia | lia |].
  split; [exact H1 | exact H2].
Defined.

(** ** [struct.pack] *)

Lemma struct_pack_eq (fmt : list Struct.code) (args : list Z) :
  Struct.pack fmt args =
  if Struct.fits_all fmt args then Some (Struct.encode fmt args) else None.
Proof.
  revert args. induction fmt as [| c fmt IH]; intros [| v args]; try reflexivity.
  cbn [Struct.pack Struct.fits_all Struct.encode]. rewrite IH.
  unfold Struct.pack_arg.
  destruct (Struct.fitsb c v); [| reflexivity].
  destruct (Struct.fits_all fmt args); reflexivity.
Qed.

Lemma fitsb_B (v : Z) : Struct.fitsb Struct.B v = true <-> 0 <= v < 256.
Proof. unfold Struct.fitsb. cbn [Struct.size]. change (2 ^ _) with 256. lia. Qed.

Lemma fitsb_H (v : Z) : Struct.fitsb Struct.H v = true <-> 0 <= v < 65536.
Proof. unfold Struct.fitsb. cbn [Struct.size]. change (2 ^ _) with 65536. lia. Qed.

Lemma fitsb_I (v : Z) : Struct.fitsb Struct.I v = true <-> 0 <= v < 4294967296.
Proof. unfold Struct.fitsb. cbn [Struct.size]. change (2 ^ _) with 4294967296. lia. Qed.

Lemma fitsb_L (v : Z) : Struct.fitsb Struct.L v = true <-> 0 <= v < 4294967296.
Proof. exact (fitsb_I v). Qed.

Lemma be_bytes_1 (v : Z) : Struct.be_bytes 1 v = [byte_of_Z v].
Proof. reflexivity. Qed.

Lemma be_bytes_2 (v : Z) : Struct.be_bytes 2 v = [byte_of_Z (v / 256); byte_of_Z v].
Proof.
  cbn [Struct.be_bytes]. rewrite (Z.shiftr_div_pow2 v (8 * Z.of_nat 1)) by lia.
  reflexivity.
Qed.

Lemma be_bytes_4 (v : Z) :
  Struct.be_bytes 4 v =
  [byte_of_Z (v / 16777216); byte_of_Z (v / 65536); byte_of_Z (v / 256);
   byte_of_Z v].
Proof.
  cbn [Struct.be_bytes].
  rewrite (Z.shiftr_div_pow2 v (8 * Z.of_nat 3)),
    (Z.shiftr_div_pow2 v (8 * Z.of_nat 2)),
    (Z.shiftr_div_pow2 v (8 * Z.of_nat 1)) by lia.
  reflexivity.
Qed.

(** The twenty bytes of an IP header. *)
Lemma ip_encode (b0 b1 tl id b6 b7 ttl proto ck src dst : Z) :
  Struct.encode IPGenerator.fmt [b0; b1; tl; id; b6; b7; ttl; proto; ck; src; dst] =
  [byte_of_Z b0; byte_of_Z b1; byte_of_Z (tl / 256); byte_of_Z tl;
   byte_of_Z (id / 256); byte_of_Z id; byte_of_Z b6; byte_of_Z b7;
   byte_of_Z ttl; byte_of_Z proto; byte_of_Z (ck / 256); byte_of_Z ck;
   byte_of_Z (src / 16777216); byte_of_Z (src / 65536); byte_of_Z (src / 256);
   byte_of_Z src;
   byte_of_Z (dst / 16777216); byte_of_Z (dst / 65536); byte_of_Z (dst / 256);
   byte_of_Z dst].
Proof.
  unfold IPGenerator.fmt. cbn [Struct.encode Struct.size].
  rewrite !be_bytes_1, !be_bytes_2, !be_bytes_4. reflexivity.
Qed.

Lemma ip_fits (b0 b1 tl id b6 b7 ttl proto ck src dst : Z) :
  Struct.fits_all IPGenerator.fmt [b0; b1; tl; id; b6; b7; ttl; proto; ck; src; dst] = true <->
  0 <= b0 < 256 /\ 0 <= b1 < 256 /\ 0 <= tl < 65536 /\ 0 <= id < 65536 /\
  0 <= b6 < 256 /\ 0 <= b7 < 256 /\ 0 <= ttl < 256 /\ 0 <= proto < 256 /\
  0 <= ck < 65536 /\ 0 <= src < 4294967296 /\ 0 <= dst < 4294967296.
Proof.
  unfold IPGenerator.fmt. cbn [Struct.fits_all].
  rewrite !andb_true_iff, !fitsb_B, !fitsb_H, !fitsb_L. tauto.
Qed.

(** ** [IPGenerator.pack] *)

Lemma next_id_range (id : Z) : 0 <= id < 65536 -> 1 <= next_id id <= 0xFFFF.
Proof. unfold next_id. destruct (Z.ltb_spec id 0xFFFF); lia. Qed.

Lemma ip_args_fits (self : IPGenerator.t) (tl id ck id' ck' : Z) :
  Struct.fits_all IPGenerator.fmt (ip_args self tl id ck) = true ->
  0 <= id' < 65536 -> 0 <= ck' < 65536 ->
  Struct.fits_all IPGenerator.fmt (ip_args self tl id' ck') = true.
Proof.
  unfold ip_args. rewrite !ip_fits. intros H Hid Hck.
  repeat (split; try tauto; try lia).
Qed.

Lemma ip_args_fits_id (self : IPGenerator.t) (tl id ck : Z) :
  Struct.fits_all IPGenerator.fmt (ip_args self tl id ck) = true ->
  0 <= id < 65536 /\ 0 <= tl < 65536.
Proof. unfold ip_args. rewrite ip_fits. tauto. Qed.

(** [pack] in one equation: it returns exactly when the first
    [struct.pack] accepts its arguments; the header it returns carries the
    identifier already advanced and the checksum of the header that carried
    the previous one. *)
Lemma ip_pack_eq (self : IPGenerator.t) (n : Z) :
  IPGenerator.pack self n =
  let tl := IPGenerator.ip_hdr_len self * 4 + n in
  let id := IPGenerator.ip_id self in
  if Struct.fits_all IPGenerator.fmt (ip_args self tl id 0) then
    let ck := chksum (Struct.encode IPGenerator.fmt (ip_args self tl id 0)) in
    (ip_with self tl (next_id id) ck,
     Returned (Struct.encode IPGenerator.fmt (ip_args self tl (next_id id) ck)))
  else (ip_with self tl id 0, Exited StructError).
Proof.
  destruct self as [ver hl dscp ecn tl0 id fl fo ttl proto ck0 src dst].
  unfold IPGenerator.pack, ip_args, ip_with, IPGenerator.pack_args,
    IPGenerator.set_ip_total_len, IPGenerator.set_ip_hdr_chksum, IPGenerator.set_ip_id.
  cbn -[Struct.pack Struct.fits_all Struct.encode chksum Z.lor Z.shiftl
        Z.shiftr Z.land Z.mul Z.add Z.ltb IPGenerator.fmt next_id].
  rewrite struct_pack_eq.
  destruct (Struct.fits_all IPGenerator.fmt _) eqn:E; [| reflexivity].
  match goal with |- context [chksum ?d] => set (ck := chksum d); pose proof (chksum_range d) as Hck; fold ck in Hck end.
  pose proof E as E0. rewrite ip_fits in E0.
  assert (Hn : 1 <= next_id id <= 0xFFFF) by (apply next_id_range; tauto).
  assert (E' : Struct.fits_all IPGenerator.fmt
            [Z.lor (Z.shiftl ver 4) hl; Z.lor (Z.shiftl dscp 2) ecn;
             hl * 4 + n; next_id id; Z.lor (Z.shiftl fl 5) (Z.shiftr fo 8);
             Z.land fo 255; ttl; proto; ck; src; dst] = true).
  { rewrite ip_fits. repeat (split; try tauto; try lia). }
  unfold next_id in *.
  destruct (id <? 65535);
    cbn -[Struct.pack Struct.fits_all Struct.encode chksum Z.lor Z.shiftl
          Z.shiftr Z.land Z.mul Z.add Z.ltb IPGenerator.fmt];
    rewrite struct_pack_eq, E'; reflexivity.
Qed.

Lemma ip_args_with (self : IPGenerator.t) (a b c tl id ck : Z) :
  ip_args (ip_with self a b c) tl id ck = ip_args self tl id ck.
Proof. reflexivity. Qed.

(** Under [in_range] the sub-byte fields sit side by side in their bytes. *)
Lemma ip_packed_bytes (self : IPGenerator.t) :
  IPGenerator.in_range self ->
  Z.lor (Z.shiftl (IPGenerator.ip_version self) 4) (IPGenerator.ip_hdr_len self)
    = IPGenerator.ip_version self * 16 + IPGenerator.ip_hdr_len self /\
  Z.lor (Z.shiftl (IPGenerator.ip_dscp self) 2) (IPGenerator.ip_ecn self)
    = IPGenerator.ip_dscp self * 4 + IPGenerator.ip_ecn self /\
  Z.lor (Z.shiftl (IPGenerator.ip_flag self) 5)
        (Z.shiftr (IPGenerator.ip_frag_offset self) 8)
    = IPGenerator.ip_flag self * 32 + IPGenerator.ip_frag_offset self / 256 /\
  Z.land (IPGenerator.ip_frag_offset self) 0xff
    = IPGenerator.ip_frag_offset self mod 256.
Proof.
  unfold IPGenerator.in_range.
  intros (Hv & Hh & Hd & He & Hi & Hf & Ho & Ht & Hp & Hs & Hdst).
  rewrite shiftr_8, land_ff.
  change (2 ^ 4) with 16 in *. change (2 ^ 6) with 64 in *.
  change (2 ^ 2) with 4 in *. change (2 ^ 3) with 8 in *.
  change (2 ^ 13) with 8192 in *.
  assert (Hq : 0 <= IPGenerator.ip_frag_offset self / 256 < 32)
    by (Z.div_mod_to_equations; lia).
  rewrite (lor_shiftl_add _ _ 4), (lor_shiftl_add _ _ 2), (lor_shiftl_add _ _ 5);
    change (2 ^ 4) with 16; change (2 ^ 2) with 4; change (2 ^ 5) with 32;
    lia.
Qed.

Lemma ip_in_range_fits (self : IPGenerator.t) (tl id ck : Z) :
  IPGenerator.in_range self ->
  0 <= tl < 65536 -> 0 <= id < 65536 -> 0 <= ck < 65536 ->
  Struct.fits_all IPGenerator.fmt (ip_args self tl id ck) = true.
Proof.
  intros Hr Htl Hid Hck.
  destruct (ip_packed_bytes self Hr) as (E0 & E1 & E6 & E7).
  unfold ip_args. rewrite E0, E1, E6, E7, ip_fits.
  unfold IPGenerator.in_range in Hr.
  destruct Hr as (Hv & Hh & Hd & He & Hi & Hf & Ho & Ht & Hp & Hs & Hdst).
  change (2 ^ 4) with 16 in *. change (2 ^ 6) with 64 in *.
  change (2 ^ 2) with 4 in *. change (2 ^ 3) with 8 in *.
  change (2 ^ 13) with 8192 in *. change (2 ^ 8) with 256 in *.
  change (2 ^ 32) with 4294967296 in *.
  repeat split; try lia; Z.div_mod_to_equations; lia.
Qed.

(** A call on an object whose fields are in range returns. *)
Lemma ip_pack_in_range (self : IPGenerator.t) (n : Z) :
  IPGenerator.in_range self ->
  0 <= IPGenerator.ip_hdr_len self * 4 + n < 65536 ->
  let tl := IPGenerator.ip_hdr_len self * 4 + n in
  let id := IPGenerator.ip_id self in
  let ck := chksum (Struct.encode IPGenerator.fmt (ip_args self tl id 0)) in
  IPGenerator.pack self n =
  (ip_with self tl (next_id id) ck,
   Returned (Struct.encode IPGenerator.fmt (ip_args self tl (next_id id) ck))).
Proof.
  intros Hr Htl. rewrite ip_pack_eq. cbv zeta.
  rewrite ip_in_range_fits; try assumption; try lia.
  - reflexivity.
  - unfold IPGenerator.in_range in Hr. change (2 ^ 16) with 65536 in Hr. tauto.
Qed.

Lemma ip_with_in_range (self : IPGenerator.t) (tl id ck : Z) :
  IPGenerator.in_range self -> 0 <= id < 65536 ->
  IPGenerator.in_range (ip_with self tl id ck).
Proof.
  unfold IPGenerator.in_range, ip_with. cbn. change (2 ^ 16) with 65536. tauto.
Qed.

Lemma next_id_mod (id : Z) :
  1 <= id <= 0xFFFF -> next_id id = id mod 0xFFFF + 1.
Proof.
  intros H. unfold next_id.
  destruct (Z.ltb_spec id 0xFFFF); Z.div_mod_to_equations; lia.
Qed.

(** Where the identifier stands after a run of calls. *)
Lemma ip_packs_id (lens : list Z) :
  forall self,
    IPGenerator.in_range self -> 1 <= IPGenerator.ip_id self ->
    Forall (fun n => 0 <= IPGenerator.ip_hdr_len self * 4 + n < 65536) lens ->
    exists self',
      IPGenerator.packs self lens = Some self' /\
      IPGenerator.ip_id self' =
        (IPGenerator.ip_id self - 1 + len lens) mod 0xFFFF + 1.
Proof.
  induction lens as [| n lens IH]; intros self Hr Hid Hl.
  - exists self. split; [reflexivity |].
    unfold IPGenerator.in_range in Hr. change (2 ^ 16) with 65536 in Hr.
    unfold len. cbn [length Z.of_nat].
    Z.div_mod_to_equations. lia.
  - inversion Hl as [| ? ? Hn Hl']; subst.
    assert (Hi : 0 <= IPGenerator.ip_id self < 65536).
    { unfold IPGenerator.in_range in Hr. change (2 ^ 16) with 65536 in Hr. tauto. }
    pose proof (next_id_range _ Hi) as Hnx.
    cbn [IPGenerator.packs]. rewrite (ip_pack_in_range self n Hr Hn). cbv zeta.
    destruct (IH (ip_with self (IPGenerator.ip_hdr_len self * 4 + n)
                    (next_id (IPGenerator.ip_id self))
                    (chksum (Struct.encode IPGenerator.fmt
                       (ip_args self (IPGenerator.ip_hdr_len self * 4 + n)
                          (IPGenerator.ip_id self) 0)))))
      as (self' & Hp & Hid').
    + apply ip_with_in_range; [exact Hr | lia].
    + cbn. lia.
    + exact Hl'.
    + exists self'. split; [exact Hp |].
      rewrite Hid'. cbn [ip_with IPGenerator.ip_id].
      rewrite next_id_mod by lia.
      unfold len. cbn [length]. rewrite Nat2Z.inj_succ.
      generalize (Z.of_nat (length lens)) (Nat2Z.is_nonneg (length lens)).
      intros L HL. Z.div_mod_to_equations. lia.
Qed.

(** C1, at a fresh [IPGenerator(IPProtocol.TCP)] and [pack(20)]: the header
    returned carries identification 2 and the checksum [0x7BCF], which is
    the checksum of the header that carried identification 1; [chksum] of
    the returned twenty bytes is [0xFFFE], not 0. *)
Theorem ip_pack_checksum_is_of_previous_id :
  exists self' header,
    IPGenerator.pack (IPGenerator.init Constants.TCP) 20 = (self', Returned header) /\
    length header = 20%nat /\
    RFC791.identification (RFC791.parse header) = 2 /\
    RFC791.checksum (RFC791.parse header) = 0x7BCF /\
    chksum header = 0xFFFE /\
    chksum header <> 0.
Proof.
  eexists. eexists. split; [vm_compute; reflexivity |].
  split; [reflexivity |].
  split; [vm_compute; reflexivity |].
  split; [vm_compute; reflexivity |].
  split; [vm_compute; reflexivity |].
  vm_compute. discriminate.
Qed.

(** C5: the identifier of a new object is 1; from an identifier in
    [[1, 0xFFFF]], every run of consecutive [pack] calls returns and leaves an
    identifier in [[1, 0xFFFF]], advanced by one per call with [0xFFFF]
    followed by 1; after [0xFFFF] calls it is back where it started, so 1 for
    a new object. *)
Theorem ip_id_counter (self : IPGenerator.t) (lens : list Z) :
  IPGenerator.in_range self -> 1 <= IPGenerator.ip_id self ->
  Forall (fun n => 0 <= IPGenerator.ip_hdr_len self * 4 + n < 65536) lens ->
  (forall p, IPGenerator.ip_id (IPGenerator.init p) = 1) /\
  exists self',
    IPGenerator.packs self lens = Some self' /\
    1 <= IPGenerator.ip_id self' <= 0xFFFF /\
    IPGenerator.ip_id self' <> 0 /\
    IPGenerator.ip_id self' =
      (IPGenerator.ip_id self - 1 + len lens) mod 0xFFFF + 1 /\
    (len lens = 1 ->
     IPGenerator.ip_id self' =
       if IPGenerator.ip_id self <? 0xFFFF then IPGenerator.ip_id self + 1 else 1) /\
    (len lens = 0xFFFF -> IPGenerator.ip_id self' = IPGenerator.ip_id self) /\
    (len lens = 0xFFFF -> IPGenerator.ip_id self = 1 ->
     IPGenerator.ip_id self' = 1).
Proof.
  intros Hr Hid Hl. split; [reflexivity |].
  destruct (ip_packs_id lens self Hr Hid Hl) as (self' & Hp & Hid').
  assert (Hi : 0 <= IPGenerator.ip_id self < 65536).
  { unfold IPGenerator.in_range in Hr. change (2 ^ 16) with 65536 in Hr. tauto. }
  exists self'. split; [exact Hp |].
  set (id := IPGenerator.ip_id self) in *.
  set (id' := IPGenerator.ip_id self') in *.
  set (L := len lens) in *.
  clearbody id id' L.
  split; [Z.div_mod_to_equations; lia |].
  split; [Z.div_mod_to_equations; lia |].
  split; [exact Hid' |].
  split; [| split].
  - intros ->. destruct (Z.ltb_spec id 0xFFFF); Z.div_mod_to_equations; lia.
  - intros ->. Z.div_mod_to_equations. lia.
  - intros -> ->. rewrite Hid'. reflexivity.
Qed.

Lemma ip_id_counter_witness :
  exists self',
    IPGenerator.packs (IPGenerator.init Constants.TCP) [20; 0; 1480] = Some self' /\
    IPGenerator.ip_id self' = 4.
Proof.
  destruct (ip_id_counter (IPGenerator.init Constants.TCP) [20; 0; 1480])
    as (_ & self' & Hp & _ & _ & Hid & _).
  - unfold IPGenerator.in_range. cbn. lia.
  - cbn. lia.
  - repeat constructor; cbn; lia.
  - exists self'. split; [exact Hp | exact Hid].
Defined.

(** C7: with every field in range and a total length that fits 16 bits,
    [pack] returns twenty bytes, and reading them by the RFC 791 layout gives
    back version, header length, DSCP, ECN, flags, fragment offset, TTL,
    protocol, source and destination as they were set. *)
Theorem ip_pack_round_trip (self : IPGenerator.t) (n : Z) :
  IPGenerator.in_range self ->
  0 <= IPGenerator.ip_hdr_len self * 4 + n < 65536 ->
  exists self' header,
    IPGenerator.pack self n = (self', Returned header) /\
    length header = 20%nat /\
    RFC791.version (RFC791.parse header) = IPGenerator.ip_version self /\
    RFC791.header_length_words (RFC791.parse header) = IPGenerator.ip_hdr_len self /\
    RFC791.dscp (RFC791.parse header) = IPGenerator.ip_dscp self /\
    RFC791.ecn (RFC791.parse header) = IPGenerator.ip_ecn self /\
    RFC791.flags (RFC791.parse header) = IPGenerator.ip_flag self /\
    RFC791.fragment_offset (RFC791.parse header) = IPGenerator.ip_frag_offset self /\
    RFC791.ttl (RFC791.parse header) = IPGenerator.ip_ttl self /\
    RFC791.protocol (RFC791.parse header) = IPGenerator.ip_protocol self /\
    RFC791.source (RFC791.parse header) = IPGenerator.ip_src_ip self /\
    RFC791.destination (RFC791.parse header) = IPGenerator.ip_dst_ip self.
Proof.
  intros Hr Htl.
  rewrite (ip_pack_in_range self n Hr Htl). cbv zeta.
  eexists. eexists. split; [reflexivity |].
  destruct (ip_packed_bytes self Hr) as (E0 & E1 & E6 & E7).
  unfold ip_args. rewrite E0, E1, E6, E7, ip_encode.
  split; [reflexivity |].
  unfold RFC791.parse, RFC791.u32, RFC791.u16, RFC791.u8.
  cbn [RFC791.version RFC791.header_length_words RFC791.dscp RFC791.ecn
       RFC791.flags RFC791.fragment_offset RFC791.ttl RFC791.protocol
       RFC791.source RFC791.destination nth Nat.add].
  rewrite !byte_val_of_Z.
  rewrite (Z.shiftr_div_pow2 _ 4), (Z.shiftr_div_pow2 _ 2),
    (Z.shiftr_div_pow2 _ 13) by lia.
  change 0xf with (Z.ones 4). change 0x3 with (Z.ones 2).
  change 0x1fff with (Z.ones 13). rewrite !Z.land_ones by lia.
  unfold IPGenerator.in_range in Hr.
  destruct Hr as (Hv & Hh & Hd & He & Hi & Hf & Ho & Ht & Hp & Hs & Hdst).
  change (2 ^ 4) with 16 in *. change (2 ^ 6) with 64 in *.
  change (2 ^ 2) with 4 in *. change (2 ^ 3) with 8 in *.
  change (2 ^ 13) with 8192 in *. change (2 ^ 8) with 256 in *.
  change (2 ^ 32) with 4294967296 in *.
  repeat (split; [Z.div_mod_to_equations; lia |]).
  Z.div_mod_to_equations; lia.
Qed.

Lemma ip_pack_round_trip_witness :
  exists self' header,
    IPGenerator.pack (IPGenerator.init Constants.TCP) 20 = (self', Returned header) /\
    RFC791.version (RFC791.parse header) = 4 /\
    RFC791.flags (RFC791.parse header) = 2 /\
    RFC791.protocol (RFC791.parse header) = 6.
Proof.
  destruct (ip_pack_round_trip (IPGenerator.init Constants.TCP) 20)
    as (self' & header & Hp & _ & Hv & _ & _ & _ & Hf & _ & _ & Hpr & _).
  - unfold IPGenerator.in_range. cbn. lia.
  - cbn. lia.
  - exists self', header. repeat split; assumption.
Defined.

(** ** Two consecutive calls *)

Lemma ip_encode_length (self : IPGenerator.t) (tl id ck : Z) :
  length (Struct.encode IPGenerator.fmt (ip_args self tl id ck)) = 20%nat.
Proof. unfold ip_args. rewrite ip_encode. reflexivity. Qed.

Lemma ip_encode_same_but (self : IPGenerator.t) (tl id ck id' ck' : Z) :
  same_but_id_and_chksum
    (Struct.encode IPGenerator.fmt (ip_args self tl id ck))
    (Struct.encode IPGenerator.fmt (ip_args self tl id' ck')).
Proof.
  unfold ip_args. rewrite !ip_encode. split; [reflexivity |].
  intros k H4 H5 H10 H11.
  do 20 (destruct k as [| k]; [first [reflexivity | congruence] |]).
  reflexivity.
Qed.

Lemma same_but_app (h1 h2 rest : bytes) :
  length h1 = length h2 ->
  same_but_id_and_chksum h1 h2 ->
  same_but_id_and_chksum (h1 ++ rest) (h2 ++ rest).
Proof.
  intros Hlen (_ & H). split.
  - rewrite !length_app. lia.
  - intros k H4 H5 H10 H11.
    destruct (Nat.lt_ge_cases k (length h1)) as [Hlt | Hge].
    + rewrite !nth_error_app1 by lia. now apply H.
    + rewrite !nth_error_app2 by lia. now rewrite Hlen.
Qed.

(** What a returning [IPGenerator.pack] leaves and what the next call, with
    the same payload length, then does. *)
Lemma ip_pack_twice (self self1 : IPGenerator.t) (n : Z) (h1 : bytes) :
  IPGenerator.pack self n = (self1, Returned h1) ->
  IPGenerator.ip_src_ip self1 = IPGenerator.ip_src_ip self /\
  IPGenerator.ip_dst_ip self1 = IPGenerator.ip_dst_ip self /\
  IPGenerator.ip_protocol self1 = IPGenerator.ip_protocol self /\
  exists self2 h2,
    IPGenerator.pack self1 n = (self2, Returned h2) /\
    length h1 = length h2 /\
    same_but_id_and_chksum h1 h2.
Proof.
  rewrite ip_pack_eq. cbv zeta.
  destruct (Struct.fits_all _ _) eqn:E; [| discriminate].
  intros H. injection H as <- <-.
  split; [reflexivity |]. split; [reflexivity |]. split; [reflexivity |].
  rewrite ip_pack_eq. cbv zeta.
  cbn [ip_with IPGenerator.ip_hdr_len IPGenerator.ip_id].
  fold (ip_with self (IPGenerator.ip_hdr_len self * 4 + n)
          (next_id (IPGenerator.ip_id self))
          (chksum (Struct.encode IPGenerator.fmt
             (ip_args self (IPGenerator.ip_hdr_len self * 4 + n)
                (IPGenerator.ip_id self) 0)))).
  rewrite !ip_args_with.
  pose proof (ip_args_fits_id _ _ _ _ E) as (Hid & _).
  pose proof (next_id_range _ Hid) as Hn.
  rewrite (ip_args_fits self _ _ 0 (next_id (IPGenerator.ip_id self)) 0 E)
    by lia.
  eexists. eexists. split; [reflexivity |].
  split; [now rewrite !ip_encode_length | apply ip_encode_same_but].
Qed.

Lemma tcp_pack_twice (self self1 : TCPGenerator.t) (out1 : bytes) :
  TCPGenerator.pack self = (self1, Returned out1) ->
  TCPGenerator.tcp_opts self = 0 /\
  exists self2 out2,
    TCPGenerator.pack self1 = (self2, Returned out2) /\
    same_but_id_and_chksum out1 out2.
Proof.
  destruct self as [ip0 sp dp sqn ack hl rsv ns cwr ece urg fack psh rst syn fin
                      win ck0 up opts pl].
  tcp_unfold.
  destruct (Z.eqb_spec opts 0) as [-> | Hne]; cbn [negb]; [| discriminate].
  head_case Eps; [| discriminate].
  head_case Ecd; [| discriminate].
  head_case Etd; [| discriminate].
  head_case Eip.
  head_case Er; cbn [TCPGenerator.handler]; try discriminate.
  intros H. injection H as <- <-.
  split; [reflexivity |].
  subst.
  destruct (ip_pack_twice _ _ _ _ Eip)
    as (Hs & Hd & Hp & ip2 & ip_data2 & Eip2 & Hlen & Hsame).
  tcp_unfold.
  rewrite Hs, Hd, Hp, Eps, Ecd, Etd, Eip2.
  eexists. eexists. split; [reflexivity |].
  now apply same_but_app.
Qed.

Lemma icmp_pack_twice (self self1 : ICMPGenerator.t) (out1 : bytes) :
  ICMPGenerator.pack self = (self1, Returned out1) ->
  exists self2 out2,
    ICMPGenerator.pack self1 = (self2, Returned out2) /\
    same_but_id_and_chksum out1 out2.
Proof.
  destruct self as [ip0 ty code ck0 opt pl].
  icmp_unfold.
  head_case Ecd; [| discriminate].
  head_case Eid; [| discriminate].
  head_case Eip.
  head_case Er; try discriminate.
  intros H. injection H as <- <-.
  subst.
  destruct (ip_pack_twice _ _ _ _ Eip)
    as (_ & _ & _ & ip2 & ip_data2 & Eip2 & Hlen & Hsame).
  icmp_unfold.
  rewrite Ecd, Eid, Eip2.
  eexists. eexists. split; [reflexivity |].
  now apply same_but_app.
Qed.

(** C4: when [pack] returns on a [TCPGenerator] (its options are then zero)
    or on an [ICMPGenerator], the next [pack] on the same object, nothing
    having been modified in between, returns as well, and the two byte
    sequences have the same length and agree at every position other than
    4, 5 (IP identification) and 10, 11 (IP header checksum). *)
Theorem consecutive_packs_same_but_id_and_chksum
    (tcp tcp1 : TCPGenerator.t) (icmp icmp1 : ICMPGenerator.t)
    (tcp_out icmp_out : bytes) :
  TCPGenerator.pack tcp = (tcp1, Returned tcp_out) ->
  ICMPGenerator.pack icmp = (icmp1, Returned icmp_out) ->
  (TCPGenerator.tcp_opts tcp = 0 /\
   exists tcp2 tcp_out',
     TCPGenerator.pack tcp1 = (tcp2, Returned tcp_out') /\
     same_but_id_and_chksum tcp_out tcp_out') /\
  (exists icmp2 icmp_out',
     ICMPGenerator.pack icmp1 = (icmp2, Returned icmp_out') /\
     same_but_id_and_chksum icmp_out icmp_out').
Proof.
  intros Ht Hi. split.
  - exact (tcp_pack_twice _ _ _ Ht).
  - exact (icmp_pack_twice _ _ _ Hi).
Qed.

Lemma consecutive_packs_same_but_id_and_chksum_witness :
  exists tcp1 tcp_out tcp2 tcp_out' icmp1 icmp_out icmp2 icmp_out',
    TCPGenerator.pack (TCPGenerator.init [x68; x69] 7) = (tcp1, Returned tcp_out) /\
    TCPGenerator.pack tcp1 = (tcp2, Returned tcp_out') /\
    same_but_id_and_chksum tcp_out tcp_out' /\
    ICMPGenerator.pack (ICMPGenerator.init Constants.ECHO_REQUEST [x68; x69] 0)
      = (icmp1, Returned icmp_out) /\
    ICMPGenerator.pack icmp1 = (icmp2, Returned icmp_out') /\
    same_but_id_and_chksum icmp_out icmp_out'.
Proof.
  assert (Et : exists tcp1 tcp_out,
             TCPGenerator.pack (TCPGenerator.init [x68; x69] 7)
             = (tcp1, Returned tcp_out))
    by (eexists; eexists; vm_compute; reflexivity).
  assert (Ei : exists icmp1 icmp_out,
             ICMPGenerator.pack (ICMPGenerator.init Constants.ECHO_REQUEST [x68; x69] 0)
             = (icmp1, Returned icmp_out))
    by (eexists; eexists; vm_compute; reflexivity).
  destruct Et as (tcp1 & tcp_out & Et). destruct Ei as (icmp1 & icmp_out & Ei).
  destruct (consecutive_packs_same_but_id_and_chksum _ _ _ _ _ _ Et Ei)
    as ((_ & tcp2 & tcp_out' & Ht2 & Hts) & (icmp2 & icmp_out' & Hi2 & His)).
  exists tcp1, tcp_out, tcp2, tcp_out', icmp1, icmp_out, icmp2, icmp_out'.
  split; [exact Et |]. split; [exact Ht2 |]. split; [exact Hts |].
  split; [exact Ei |]. split; [exact Hi2 | exact His].
Defined.

(** ** [TCPGenerator.pack] with options set *)

(** C2, as amended: with [tcp_opts] non-zero, [pack] ends in its handler on
    the options exception, having produced no output and having changed
    nothing but [tcp_hdr_chksum], which it has reset to 0; the inherited IP
    attributes, [ip_id] among them, are as before. *)
Theorem tcp_pack_options_only_clears_chksum (self : TCPGenerator.t) :
  TCPGenerator.tcp_opts self <> 0 ->
  TCPGenerator.pack self =
    (TCPGenerator.set_tcp_hdr_chksum self 0, Exited CannotHandleOptions) /\
  TCPGenerator.tcp_hdr_chksum (fst (TCPGenerator.pack self)) = 0 /\
  TCPGenerator.ip (fst (TCPGenerator.pack self)) = TCPGenerator.ip self /\
  IPGenerator.ip_id (TCPGenerator.ip (fst (TCPGenerator.pack self))) =
    IPGenerator.ip_id (TCPGenerator.ip self) /\
  (TCPGenerator.tcp_hdr_chksum self = 0 -> fst (TCPGenerator.pack self) = self).
Proof.
  intros Hopts.
  assert (E : TCPGenerator.pack self =
              (TCPGenerator.set_tcp_hdr_chksum self 0, Exited CannotHandleOptions)).
  { unfold TCPGenerator.pack.
    cbn [TCPGenerator.set_tcp_hdr_chksum TCPGenerator.tcp_opts].
    destruct (Z.eqb_spec (TCPGenerator.tcp_opts self) 0); [contradiction |].
    reflexivity. }
  rewrite E. split; [reflexivity |]. split; [reflexivity |].
  split; [reflexivity |]. split; [reflexivity |].
  intros Hck. destruct self. cbn in *. now subst.
Qed.

Lemma tcp_pack_options_only_clears_chksum_witness :
  TCPGenerator.pack (TCPGenerator.set_tcp_opts (TCPGenerator.init [] 0) 1) =
  (TCPGenerator.set_tcp_opts (TCPGenerator.init [] 0) 1, Exited CannotHandleOptions).
Proof.
  destruct (tcp_pack_options_only_clears_chksum
              (TCPGenerator.set_tcp_opts (TCPGenerator.init [] 0) 1))
    as (E & _); [discriminate | exact E].
Defined.

(** C2 as stated fails on an object that has been packed once and then
    given options: its [tcp_hdr_chksum] is [0xAFE5] before the failing call
    and 0 after it. *)
Lemma tcp_pack_options_changes_chksum :
  let self :=
    TCPGenerator.set_tcp_opts (fst (TCPGenerator.pack (TCPGenerator.init [] 0))) 1 in
  TCPGenerator.tcp_opts self <> 0 /\
  TCPGenerator.tcp_hdr_chksum self = 0xAFE5 /\
  TCPGenerator.tcp_hdr_chksum (fst (TCPGenerator.pack self)) = 0 /\
  fst (TCPGenerator.pack self) <> self.
Proof.
  cbv zeta.
  split; [discriminate |].
  split; [vm_compute; reflexivity |].
  split; [vm_compute; reflexivity |].
  intros H. apply (f_equal TCPGenerator.tcp_hdr_chksum) in H.
  vm_compute in H. discriminate.
Qed.

(** ** [Ping.pack] *)

Lemma icmp_pack_opt (self : ICMPGenerator.t) :
  ICMPGenerator.icmp_opt (fst (ICMPGenerator.pack self)) =
  ICMPGenerator.icmp_opt self.
Proof.
  destruct self as [ip0 ty code ck0 opt pl].
  icmp_unfold.
  destruct (Struct.pack _ _); [| reflexivity].
  destruct (Struct.pack _ _); [| reflexivity].
  destruct (IPGenerator.pack _ _) as [ip1 [h | e | e]]; reflexivity.
Qed.

(** C6, on a [Ping] whose sequence number has reached [0xFFFF]: [pack] adds
    one to the whole 32-bit option field, on every object, so here the
    carry turns identifier [0x1234] into [0x1235] and the sequence number
    into 0. *)
Theorem ping_pack_carries_into_identifier :
  (forall self,
     ICMPGenerator.icmp_opt (fst (Ping.pack self)) =
     ICMPGenerator.icmp_opt self + 1) /\
  let self := ICMPGenerator.set_icmp_opt (Ping.init [] 0x1234) 0x1234FFFF in
  exists self' out,
    Ping.pack self = (self', Returned out) /\
    Ping.identifier self = 0x1234 /\ Ping.sequence_number self = 0xFFFF /\
    Ping.identifier self' = 0x1235 /\ Ping.sequence_number self' = 0 /\
    Ping.identifier self' <> Ping.identifier self.
Proof.
  split.
  - intros self. unfold Ping.pack. rewrite icmp_pack_opt. reflexivity.
  - cbv zeta. eexists. eexists.
    split; [vm_compute; reflexivity |].
    split; [vm_compute; reflexivity |].
    split; [vm_compute; reflexivity |].
    split; [vm_compute; reflexivity |].
    split; [vm_compute; reflexivity |].
    vm_compute. discriminate.
Qed.

(** * Further properties *)

(** ** [chksum] as a function of the integer its input spells *)

Lemma oc_norm_rel (n : Z) : 0 <= n -> oc_rel (oc_norm n) n.
Proof.
  intros Hn. unfold oc_norm, oc_rel.
  destruct (Z.eqb_spec n 0) as [-> | Hne].
  - split; [lia |]. split; [exists 0; lia | tauto].
  - pose proof (Z.mod_pos_bound (n - 1) 0xFFFF ltac:(lia)) as Hm.
    split; [lia |]. split.
    + exists ((n - 1) / 0xFFFF).
      pose proof (Z.div_mod (n - 1) 0xFFFF ltac:(lia)). lia.
    + lia.
Qed.

Lemma lnot_land_ffff (s : Z) :
  0 <= s <= 0xFFFF -> Z.land (Z.lnot s) 0xffff = 0xFFFF - s.
Proof.
  intros Hs. rewrite land_ffff. unfold Z.lnot.
  replace (Z.pred (- s)) with ((0xFFFF - s) + (-1) * 65536) by lia.
  rewrite Z.mod_add by lia. apply Z.mod_small. lia.
Qed.

Lemma chksum_int (header : bytes) :
  chksum header = 0xFFFF - oc_norm (int_from_bytes header).
Proof.
  destruct (chksum_words_spec header) as (Hlen & Hval & Hrange).
  pose proof (sum_words_rel _ Hlen Hrange 0 0 ltac:(lia) oc_rel_zero) as Hcode.
  rewrite Hval in Hcode. cbn [Z.add] in Hcode.
  pose proof (int_from_bytes_bound header) as Hb.
  pose proof (oc_norm_rel (int_from_bytes header) ltac:(lia)) as Hn.
  unfold chksum. cbv zeta.
  rewrite (oc_rel_unique _ _ _ Hcode Hn).
  apply lnot_land_ffff. apply Hn.
Qed.

(** X1: [chksum] is [0xFFFF] minus the one's-complement representative of
    the integer that the bytes spell in base 256: it is [0xFFFF] when that
    integer is 0, and otherwise [0xFFFE - (n - 1) mod 0xFFFF]. *)
Theorem chksum_closed_form (header : bytes) :
  chksum header =
  if int_from_bytes header =? 0 then 0xFFFF
  else 0xFFFE - (int_from_bytes header - 1) mod 0xFFFF.
Proof.
  rewrite chksum_int. unfold oc_norm.
  destruct (int_from_bytes header =? 0); lia.
Qed.

Lemma from_acc_app (a : Z) (l1 l2 : bytes) :
  from_acc a (l1 ++ l2) = from_acc (from_acc a l1) l2.
Proof. unfold from_acc. apply fold_left_app. Qed.

Lemma from_acc_shift (l : bytes) :
  forall a, from_acc a l = a * 256 ^ len l + from_acc 0 l.
Proof.
  induction l as [| b l IH]; intros a.
  - cbn. lia.
  - rewrite !from_acc_cons, (IH (a * 256 + byte_val b)),
      (IH (0 * 256 + byte_val b)).
    unfold len. cbn [length]. rewrite Nat2Z.inj_succ, Z.pow_succ_r by lia.
    ring.
Qed.

Lemma int_from_bytes_app (l1 l2 : bytes) :
  int_from_bytes (l1 ++ l2) =
  int_from_bytes l1 * 256 ^ len l2 + int_from_bytes l2.
Proof.
  unfold int_from_bytes. fold (from_acc 0 (l1 ++ l2)) (from_acc 0 l1) (from_acc 0 l2).
  rewrite from_acc_app. apply from_acc_shift.
Qed.

Lemma int_from_bytes_zeros (k : nat) : int_from_bytes (repeat x00 k) = 0.
Proof.
  induction k as [| k IH]; [reflexivity |].
  cbn [repeat]. unfold int_from_bytes in *. cbn [fold_left]. exact IH.
Qed.

(** X2: zero bytes in front of the input do not change [chksum]; an
    all-zero input of any length has checksum [0xFFFF]. *)
Theorem chksum_leading_zeros (k : nat) (header : bytes) :
  chksum (repeat x00 k ++ header) = chksum header /\
  chksum (repeat x00 k) = 0xFFFF.
Proof.
  rewrite !chksum_int, int_from_bytes_app, int_from_bytes_zeros.
  split; [f_equal; f_equal; lia | reflexivity].
Qed.

Lemma be_bytes_2_int (v : Z) :
  0 <= v < 65536 -> int_from_bytes (Struct.be_bytes 2 v) = v.
Proof.
  intros Hv. rewrite be_bytes_2. unfold int_from_bytes. cbn [fold_left].
  rewrite !byte_val_of_Z. Z.div_mod_to_equations. lia.
Qed.

(** The value of a 16-bit field enters the integer at the weight of its
    position. *)
Lemma int_field16 (pre post : bytes) (v : Z) :
  0 <= v < 65536 ->
  int_from_bytes (pre ++ Struct.be_bytes 2 v ++ post) =
  int_from_bytes (pre ++ Struct.be_bytes 2 0 ++ post) + v * 256 ^ len post.
Proof.
  intros Hv.
  rewrite !(int_from_bytes_app pre), !(int_from_bytes_app (Struct.be_bytes 2 _)).
  rewrite !be_bytes_2_int by lia.
  replace (len (Struct.be_bytes 2 v ++ post))
    with (len (Struct.be_bytes 2 0 ++ post))
    by (unfold len; now rewrite !length_app).
  ring.
Qed.

Lemma pow256_even (n : nat) :
  Nat.even n = true -> exists j, 0 <= j /\ 256 ^ Z.of_nat n = 1 + 0xFFFF * j.
Proof.
  intros H. apply Nat.even_spec in H. destruct H as (m & ->).
  induction m as [| m (j & Hj & IH)].
  - exists 0. split; [lia | reflexivity].
  - exists (1 + 65536 * j). split; [lia |].
    replace (Z.of_nat (2 * S m)) with (Z.of_nat (2 * m) + 2) by lia.
    rewrite Z.pow_add_r, IH by lia. change (256 ^ 2) with 65536. ring.
Qed.

(** Adding [d] at an even distance from the end and a multiple of
    [0xFFFF] does not change the residue; [oc_norm] of a positive multiple
    of [0xFFFF] plus [r] in [[1, 0xFFFF]] is [r]. *)
Lemma oc_norm_residue (n r k : Z) :
  0 < n -> 1 <= r <= 0xFFFF -> n = r + 0xFFFF * k -> oc_norm n = r.
Proof.
  intros Hn Hr E.
  apply (oc_rel_unique _ _ n (oc_norm_rel n ltac:(lia))).
  split; [lia |]. split; [exists k; exact E | lia].
Qed.

Lemma oc_norm_decomp (n : Z) :
  0 <= n ->
  exists k, 0 <= k /\ n = oc_norm n + 0xFFFF * k /\
            0 <= oc_norm n <= 0xFFFF /\ (oc_norm n = 0 <-> n = 0).
Proof.
  intros Hn. destruct (oc_norm_rel n Hn) as (Hr & (k & Hk) & Hz).
  exists k. repeat split; try tauto; try lia.
Qed.

Lemma chksum_field_verifies (pre post : bytes) :
  Nat.even (length post) = true ->
  chksum (pre ++ Struct.be_bytes 2
            (chksum (pre ++ Struct.be_bytes 2 0 ++ post)) ++ post) = 0.
Proof.
  intros Hev.
  set (m0 := pre ++ Struct.be_bytes 2 0 ++ post).
  pose proof (chksum_range m0) as Hck.
  rewrite (chksum_int (pre ++ _ ++ post)).
  rewrite int_field16 by lia. fold m0.
  rewrite (chksum_int m0) in *.
  pose proof (int_from_bytes_bound m0) as Hb.
  destruct (oc_norm_decomp (int_from_bytes m0) ltac:(lia))
    as (k & Hk & E & Hr & Hz).
  destruct (pow256_even _ Hev) as (j & Hj & Ep).
  unfold len. rewrite Ep.
  set (s := oc_norm (int_from_bytes m0)) in *.
  rewrite (oc_norm_residue _ 0xFFFF (k + j * (0xFFFF - s))); try lia.
  destruct (Z.eq_dec s 0xFFFF) as [Es | Es].
  - assert (int_from_bytes m0 <> 0) by lia. nia.
  - nia.
Qed.

(** X3: the checksum verifies itself.  Put the checksum of a message
    whose 16-bit checksum field is zero into that field: when the field lies
    an even number of bytes before the end of the message, [chksum] of the
    completed message is 0. *)
Theorem chksum_self_verifying (pre post : bytes) :
  Nat.even (length post) = true ->
  chksum (pre ++ Struct.be_bytes 2
            (chksum (pre ++ Struct.be_bytes 2 0 ++ post)) ++ post) = 0.
Proof. apply chksum_field_verifies. Qed.

Lemma chksum_self_verifying_witness :
  chksum ([x08; x00] ++ Struct.be_bytes 2
            (chksum ([x08; x00] ++ Struct.be_bytes 2 0 ++ [x12; x34; x00; x01]))
          ++ [x12; x34; x00; x01]) = 0.
Proof.
  apply (chksum_self_verifying [x08; x00] [x12; x34; x00; x01]). reflexivity.
Defined.

(** ** More on [IPGenerator.pack] *)

(** What a returning call has done, read off [ip_pack_eq]. *)
Lemma ip_pack_returned (self self' : IPGenerator.t) (n : Z) (h : bytes) :
  IPGenerator.pack self n = (self', Returned h) ->
  let tl := IPGenerator.ip_hdr_len self * 4 + n in
  let id := IPGenerator.ip_id self in
  let ck := chksum (Struct.encode IPGenerator.fmt (ip_args self tl id 0)) in
  Struct.fits_all IPGenerator.fmt (ip_args self tl id 0) = true /\
  self' = ip_with self tl (next_id id) ck /\
  h = Struct.encode IPGenerator.fmt (ip_args self tl (next_id id) ck).
Proof.
  rewrite ip_pack_eq. cbv zeta.
  destruct (Struct.fits_all _ _) eqn:E; [| discriminate].
  intros H. injection H as <- <-. repeat split.
Qed.

(** The header around its two 16-bit fields that change from call to
    call. *)
Lemma ip_header_split (self : IPGenerator.t) (tl : Z) :
  exists P M Q : bytes,
    length P = 4%nat /\ length M = 4%nat /\ length Q = 8%nat /\
    forall id ck,
      Struct.encode IPGenerator.fmt (ip_args self tl id ck) =
      P ++ Struct.be_bytes 2 id ++ M ++ Struct.be_bytes 2 ck ++ Q.
Proof.
  exists (Struct.encode [Struct.B; Struct.B; Struct.H]
            (firstn 3 (ip_args self tl 0 0))),
         (Struct.encode [Struct.B; Struct.B; Struct.B; Struct.B]
            (firstn 4 (skipn 4 (ip_args self tl 0 0)))),
         (Struct.encode [Struct.L; Struct.L] (skipn 9 (ip_args self tl 0 0))).
  repeat split.
Qed.

(** X4: whenever [pack] returns, the header has twenty bytes; its total
    length field is [ip_hdr_len * 4 + payload_data_length]; its
    identification field is the identifier already advanced, the one the
    object now stores, not the one it stored when the call began; and its
    checksum field is the stored [ip_hdr_chksum]. *)
Theorem ip_pack_returned_fields (self self' : IPGenerator.t) (n : Z) (h : bytes) :
  IPGenerator.pack self n = (self', Returned h) ->
  length h = 20%nat /\
  RFC791.total_length (RFC791.parse h) = IPGenerator.ip_hdr_len self * 4 + n /\
  IPGenerator.ip_total_len self' = IPGenerator.ip_hdr_len self * 4 + n /\
  IPGenerator.ip_id self' = next_id (IPGenerator.ip_id self) /\
  RFC791.identification (RFC791.parse h) = IPGenerator.ip_id self' /\
  RFC791.checksum (RFC791.parse h) = IPGenerator.ip_hdr_chksum self'.
Proof.
  intros H. apply ip_pack_returned in H. cbv zeta in H.
  destruct H as (E & -> & ->).
  pose proof (ip_args_fits_id _ _ _ _ E) as (Hid & Htl).
  pose proof (next_id_range _ Hid) as Hn.
  match goal with |- context [chksum ?d] =>
    pose proof (chksum_range d) as Hck; set (ck := chksum d) in * end.
  split; [apply ip_encode_length |].
  unfold ip_args. rewrite ip_encode.
  unfold RFC791.parse, RFC791.u16, RFC791.u8.
  cbn [RFC791.total_length RFC791.identification RFC791.checksum nth Nat.add
       ip_with IPGenerator.ip_total_len IPGenerator.ip_id
       IPGenerator.ip_hdr_chksum].
  rewrite !byte_val_of_Z.
  repeat (split; [try reflexivity; Z.div_mod_to_equations; lia |]).
  Z.div_mod_to_equations; lia.
Qed.

Lemma ip_pack_returned_fields_witness :
  exists self' h,
    IPGenerator.pack (IPGenerator.init Constants.ICMP) 36 = (self', Returned h) /\
    RFC791.total_length (RFC791.parse h) = 56 /\
    RFC791.identification (RFC791.parse h) = 2.
Proof.
  assert (E : exists self' h,
             IPGenerator.pack (IPGenerator.init Constants.ICMP) 36
             = (self', Returned h))
    by (eexists; eexists; vm_compute; reflexivity).
  destruct E as (self' & h & E).
  destruct (ip_pack_returned_fields _ _ _ _ E) as (_ & Htl & _ & Hid & Hid' & _).
  exists self', h. split; [exact E |]. split; [exact Htl |].
  rewrite Hid', Hid. reflexivity.
Defined.

(** X5: whenever [pack] returns, the checksum in the header is the one
    that verifies the header carrying the identifier the call began with;
    the header returned carries the next identifier, and [chksum] of it is
    [0xFFFE] on every object. *)
Theorem ip_pack_returned_chksum (self self' : IPGenerator.t) (n : Z) (h : bytes) :
  IPGenerator.pack self n = (self', Returned h) ->
  chksum (Struct.encode IPGenerator.fmt
            (ip_args self (IPGenerator.ip_total_len self')
               (IPGenerator.ip_id self) (IPGenerator.ip_hdr_chksum self'))) = 0 /\
  chksum h = 0xFFFE.
Proof.
  intros H. apply ip_pack_returned in H. cbv zeta in H.
  destruct H as (E & -> & ->).
  cbn [ip_with IPGenerator.ip_total_len IPGenerator.ip_hdr_chksum].
  pose proof (ip_args_fits_id _ _ _ _ E) as (Hid & Htl).
  pose proof (next_id_range _ Hid) as Hn.
  set (tl := IPGenerator.ip_hdr_len self * 4 + n) in *.
  set (id := IPGenerator.ip_id self) in *.
  destruct (ip_header_split self tl) as (P & M & Q & HP & HM & HQ & Hsplit).
  assert (Hver : chksum (Struct.encode IPGenerator.fmt
                   (ip_args self tl id
                      (chksum (Struct.encode IPGenerator.fmt (ip_args self tl id 0)))))
                 = 0).
  { assert (Hassoc : forall A B : bytes,
              P ++ A ++ M ++ B ++ Q = (P ++ A ++ M) ++ B ++ Q)
      by (intros; now rewrite <- !app_assoc).
    rewrite !Hsplit, !Hassoc.
    apply chksum_field_verifies. now rewrite HQ. }
  split; [exact Hver |].
  set (ck := chksum (Struct.encode IPGenerator.fmt (ip_args self tl id 0))) in *.
  rewrite chksum_int in Hver |- *.
  rewrite Hsplit in Hver |- *.
  rewrite int_field16 in Hver |- * by lia.
  set (h0 := int_from_bytes (P ++ Struct.be_bytes 2 0 ++ M ++ Struct.be_bytes 2 ck ++ Q)) in *.
  pose proof (int_from_bytes_bound (P ++ Struct.be_bytes 2 0 ++ M ++ Struct.be_bytes 2 ck ++ Q)) as Hh0.
  fold h0 in Hh0.
  assert (Hev : Nat.even (length (M ++ Struct.be_bytes 2 ck ++ Q)) = true).
  { rewrite !length_app, HM, HQ. reflexivity. }
  destruct (pow256_even _ Hev) as (j & Hj & Ep).
  unfold len in *. rewrite Ep in *.
  destruct (oc_norm_decomp (h0 + id * (1 + 0xFFFF * j)) ltac:(nia))
    as (k & Hk & Ek & _ & _).
  assert (Es : oc_norm (h0 + id * (1 + 0xFFFF * j)) = 0xFFFF) by lia.
  rewrite Es in Ek.
  assert (Hone : oc_norm (h0 + next_id id * (1 + 0xFFFF * j)) = 1).
  { unfold next_id in *.
    destruct (Z.ltb_spec id 0xFFFF).
    - apply oc_norm_residue with (k := k + 1 + j); lia.
    - assert (id = 0xFFFF) by lia. subst id.
      apply oc_norm_residue with (k := k - 65534 * j); lia. }
  rewrite Hone. reflexivity.
Qed.

Lemma ip_pack_returned_chksum_witness :
  exists self' h,
    IPGenerator.pack (IPGenerator.init Constants.ICMP) 36 = (self', Returned h) /\
    chksum h = 0xFFFE.
Proof.
  assert (E : exists self' h,
             IPGenerator.pack (IPGenerator.init Constants.ICMP) 36
             = (self', Returned h))
    by (eexists; eexists; vm_compute; reflexivity).
  destruct E as (self' & h & E).
  destruct (ip_pack_returned_chksum _ _ _ _ E) as (_ & Hc).
  exists self', h. split; [exact E | exact Hc].
Defined.

(** X6: a payload length for which [ip_hdr_len * 4 + payload_data_length]
    is negative or above [0xFFFF] makes [pack] end in its handler on a
    [struct.error]: nothing is returned, [ip_id] is not advanced, and the
    object is left with the new total length and [ip_hdr_chksum = 0]. *)
Theorem ip_pack_total_len_overflow (self : IPGenerator.t) (n : Z) :
  ~ (0 <= IPGenerator.ip_hdr_len self * 4 + n <= 0xFFFF) ->
  IPGenerator.pack self n =
    (ip_with self (IPGenerator.ip_hdr_len self * 4 + n)
       (IPGenerator.ip_id self) 0,
     Exited StructError).
Proof.
  intros Hn. rewrite ip_pack_eq. cbv zeta.
  destruct (Struct.fits_all _ _) eqn:E; [| reflexivity].
  apply ip_args_fits_id in E. lia.
Qed.

Lemma ip_pack_total_len_overflow_witness :
  IPGenerator.pack (IPGenerator.init Constants.TCP) 65516 =
  (ip_with (IPGenerator.init Constants.TCP) 65536 1 0, Exited StructError).
Proof.
  apply (ip_pack_total_len_overflow (IPGenerator.init Constants.TCP) 65516).
  cbn. lia.
Defined.

(** X7: however [pack] ends, no exception reaches the caller; and a call
    that does not return has ended in the handler on a [struct.error] with
    the identifier not advanced: the object then differs from the one before
    the call in [ip_total_len] and [ip_hdr_chksum] at most. *)
Theorem ip_pack_failure (self self' : IPGenerator.t) (n : Z) (r : outcome bytes) :
  IPGenerator.pack self n = (self', r) ->
  (forall e, r <> Raised e) /\
  ((forall h, r <> Returned h) ->
   r = Exited StructError /\
   self' = ip_with self (IPGenerator.ip_hdr_len self * 4 + n)
             (IPGenerator.ip_id self) 0 /\
   IPGenerator.ip_id self' = IPGenerator.ip_id self).
Proof.
  rewrite ip_pack_eq. cbv zeta.
  destruct (Struct.fits_all _ _); intros H; injection H as <- <-.
  - split; [discriminate |]. intros Hr. now destruct (Hr _ eq_refl).
  - split; [discriminate |]. intros _. repeat split.
Qed.

Lemma ip_pack_failure_witness :
  IPGenerator.ip_id
    (fst (IPGenerator.pack (IPGenerator.set_ip_src_ip (IPGenerator.init Constants.TCP) (-1)) 20)) = 1.
Proof.
  destruct (IPGenerator.pack
              (IPGenerator.set_ip_src_ip (IPGenerator.init Constants.TCP) (-1)) 20)
    as [self' r] eqn:E.
  destruct (ip_pack_failure _ _ _ _ E) as (_ & H).
  destruct H as (_ & _ & Hid).
  - intros h ->. vm_compute in E. discriminate.
  - exact Hid.
Defined.

Lemma init_in_range (p : Constants.IPProtocol) :
  IPGenerator.in_range (IPGenerator.init p).
Proof. unfold IPGenerator.in_range. destruct p; cbn; lia. Qed.

(** X8: a newly constructed [IPGenerator], for any protocol of the enum,
    packs every payload length from 0 to 65515: the header starts with the
    byte [0x45], its byte 9 is the protocol number, its total length is
    [20 + payload_data_length], and it carries identification 2. *)
Theorem ip_init_pack (p : Constants.IPProtocol) (n : Z) :
  0 <= n <= 65515 ->
  exists self' h,
    IPGenerator.pack (IPGenerator.init p) n = (self', Returned h) /\
    nth 0 h x00 = x45 /\
    RFC791.u8 h 9 = Constants.IPProtocol_value p /\
    RFC791.total_length (RFC791.parse h) = 20 + n /\
    RFC791.identification (RFC791.parse h) = 2 /\
    IPGenerator.ip_id self' = 2.
Proof.
  intros Hn.
  rewrite (ip_pack_in_range _ n (init_in_range p))
    by (cbn [IPGenerator.init IPGenerator.ip_hdr_len]; lia).
  cbv zeta. eexists. eexists. split; [reflexivity |].
  unfold ip_args. rewrite ip_encode.
  unfold RFC791.parse, RFC791.u16, RFC791.u8.
  cbn [RFC791.total_length RFC791.identification nth Nat.add
       ip_with IPGenerator.ip_id].
  rewrite !byte_val_of_Z.
  split; [reflexivity |].
  split; [destruct p; reflexivity |].
  split; [| split; reflexivity].
  cbn [IPGenerator.init IPGenerator.ip_hdr_len].
  Z.div_mod_to_equations. lia.
Qed.

Lemma ip_init_pack_witness :
  exists self' h,
    IPGenerator.pack (IPGenerator.init Constants.TCP) 20 = (self', Returned h) /\
    nth 0 h x00 = x45 /\ RFC791.u8 h 9 = 6.
Proof.
  destruct (ip_init_pack Constants.TCP 20) as (self' & h & E & H0 & H9 & _);
    [lia |].
  exists self', h. split; [exact E |]. split; [exact H0 | exact H9].
Defined.

(** ** [TCPGenerator.pack] and [ICMPGenerator.pack] in one equation each *)

Lemma tcp_pack_eq (self : TCPGenerator.t) :
  TCPGenerator.pack self =
  if negb (TCPGenerator.tcp_opts self =? 0)
  then (TCPGenerator.set_tcp_hdr_chksum self 0, Exited CannotHandleOptions)
  else if Struct.fits_all TCPGenerator.pseudo_fmt (tcp_pseudo_args self)
          && Struct.fits_all TCPGenerator.fmt (tcp_args self 0)
  then
    let ck := chksum (Struct.encode TCPGenerator.pseudo_fmt (tcp_pseudo_args self)
                      ++ Struct.encode TCPGenerator.fmt (tcp_args self 0)
                      ++ TCPGenerator.payload self) in
    let tcp_data := Struct.encode TCPGenerator.fmt (tcp_args self ck) in
    let ipr := IPGenerator.pack (TCPGenerator.ip self)
                 (len (tcp_data ++ TCPGenerator.payload self)) in
    (TCPGenerator.set_ip (TCPGenerator.set_tcp_hdr_chksum self ck) (fst ipr),
     match snd ipr with
     | Returned ip_data =>
         Returned (ip_data ++ tcp_data ++ TCPGenerator.payload self)
     | r => TCPGenerator.handler r
     end)
  else (TCPGenerator.set_tcp_hdr_chksum self 0, Exited StructError).
Proof.
  destruct self as [ip0 sp dp sqn ack hl rsv ns cwr ece urg fack psh rst syn fin
                      win ck0 up opts pl].
  unfold tcp_pseudo_args, tcp_args, tcp_byte13, tcp_byte14.
  tcp_unfold.
  destruct (negb (opts =? 0)); [reflexivity |].
  rewrite (struct_pack_eq TCPGenerator.pseudo_fmt).
  destruct (Struct.fits_all TCPGenerator.pseudo_fmt _); [| reflexivity].
  rewrite (struct_pack_eq TCPGenerator.fmt).
  destruct (Struct.fits_all TCPGenerator.fmt _) eqn:E; [| reflexivity].
  cbn [andb].
  match goal with |- context [chksum ?d] =>
    pose proof (chksum_range d) as Hck; set (ck := chksum d) in * end.
  rewrite (struct_pack_eq TCPGenerator.fmt).
  assert (E' : Struct.fits_all TCPGenerator.fmt
                 [sp; dp; sqn; ack; Z.lor (Z.shiftl hl 4) ns;
                  Z.lor (Z.shiftl (Z.lor (Z.shiftl (Z.lor (Z.shiftl
                    (Z.lor (Z.shiftl (Z.lor (Z.shiftl (Z.lor (Z.shiftl
                    (Z.lor (Z.shiftl cwr 1) ece) 1) urg) 1) fack) 1) psh) 1)
                    rst) 1) syn) 1) fin; win; ck; up] = true).
  { revert E. unfold TCPGenerator.fmt. cbn [Struct.fits_all].
    rewrite !andb_true_iff, !fitsb_H. intuition lia. }
  rewrite E'.
  destruct (IPGenerator.pack ip0 _) as [ip1 [h | e | e]]; reflexivity.
Qed.

Lemma icmp_pack_eq (self : ICMPGenerator.t) :
  ICMPGenerator.pack self =
  if Struct.fits_all ICMPGenerator.fmt (icmp_args self 0)
  then
    let ck := chksum (Struct.encode ICMPGenerator.fmt (icmp_args self 0)
                      ++ ICMPGenerator.payload self) in
    let icmp_data := Struct.encode ICMPGenerator.fmt (icmp_args self ck)
                     ++ ICMPGenerator.payload self in
    let ipr := IPGenerator.pack (ICMPGenerator.ip self) (len icmp_data) in
    (ICMPGenerator.set_ip (ICMPGenerator.set_icmp_hdr_chksum self ck) (fst ipr),
     match snd ipr with
     | Returned ip_data => Returned (ip_data ++ icmp_data)
     | r => r
     end)
  else (ICMPGenerator.set_icmp_hdr_chksum self 0, Raised StructError).
Proof.
  destruct self as [ip0 ty code ck0 opt pl].
  unfold icmp_args. icmp_unfold.
  rewrite (struct_pack_eq ICMPGenerator.fmt).
  destruct (Struct.fits_all ICMPGenerator.fmt _) eqn:E; [| reflexivity].
  match goal with |- context [chksum ?d] =>
    pose proof (chksum_range d) as Hck; set (ck := chksum d) in * end.
  rewrite (struct_pack_eq ICMPGenerator.fmt).
  assert (E' : Struct.fits_all ICMPGenerator.fmt [ty; code; ck; opt] = true).
  { revert E. unfold ICMPGenerator.fmt. cbn [Struct.fits_all].
    rewrite !andb_true_iff, !fitsb_H. intuition lia. }
  rewrite E'.
  destruct (IPGenerator.pack ip0 _) as [ip1 [h | e | e]]; reflexivity.
Qed.

Lemma rfc1071_int (bs : bytes) :
  Nat.even (length bs) = true ->
  RFC1071.checksum bs = 0xFFFF - oc_norm (int_from_bytes bs).
Proof.
  intros Hev.
  pose proof (oc_add_rel bs Hev 0 0 ltac:(lia) oc_rel_zero) as Href.
  pose proof (int_from_bytes_bound bs) as Hb.
  pose proof (oc_norm_rel (int_from_bytes bs) ltac:(lia)) as Hn.
  unfold RFC1071.checksum.
  change (from_acc 0 bs) with (int_from_bytes bs) in Href.
  rewrite (oc_rel_unique _ _ _ Href Hn).
  apply lnot_land_ffff. apply Hn.
Qed.

Lemma skipn_app_exact (A : Type) (n : nat) (l1 l2 : list A) :
  length l1 = n -> skipn n (l1 ++ l2) = l2.
Proof.
  intros <-. rewrite skipn_app, skipn_all, Nat.sub_diag. reflexivity.
Qed.

Lemma land_1 (v : Z) : Z.land v 1 = v mod 2.
Proof. change 1 with (Z.ones 1). now rewrite Z.land_ones by lia. Qed.

Lemma land_7 (v : Z) : Z.land v 0x7 = v mod 8.
Proof. change 0x7 with (Z.ones 3). now rewrite Z.land_ones by lia. Qed.

(** ** The TCP header *)

Lemma tcp_packed_bytes (self : TCPGenerator.t) :
  TCPGenerator.in_range self ->
  tcp_byte13 self =
    TCPGenerator.tcp_hdr_length self * 16 + TCPGenerator.tcp_flag_ns self /\
  tcp_byte14 self =
    TCPGenerator.tcp_flag_cwr self * 128 + TCPGenerator.tcp_flag_ece self * 64
    + TCPGenerator.tcp_flag_urg self * 32 + TCPGenerator.tcp_flag_ack self * 16
    + TCPGenerator.tcp_flag_psh self * 8 + TCPGenerator.tcp_flag_rst self * 4
    + TCPGenerator.tcp_flag_syn self * 2 + TCPGenerator.tcp_flag_fin self.
Proof.
  unfold TCPGenerator.in_range, tcp_byte13, tcp_byte14. cbv zeta.
  intros (_ & _ & _ & _ & Hl & Hns & Hcwr & Hece & Hurg & Hack & Hpsh & Hrst
          & Hsyn & Hfin & _).
  rewrite (lor_shiftl_add _ _ 4) by (change (2 ^ 4) with 16; lia).
  rewrite !(lor_shiftl_add _ _ 1) by (change (2 ^ 1) with 2; lia).
  change (2 ^ 4) with 16. change (2 ^ 1) with 2. lia.
Qed.

Lemma tcp_encode (sp dp sqn ack b13 b14 win ck up : Z) :
  Struct.encode TCPGenerator.fmt [sp; dp; sqn; ack; b13; b14; win; ck; up] =
  [byte_of_Z (sp / 256); byte_of_Z sp; byte_of_Z (dp / 256); byte_of_Z dp;
   byte_of_Z (sqn / 16777216); byte_of_Z (sqn / 65536); byte_of_Z (sqn / 256);
   byte_of_Z sqn;
   byte_of_Z (ack / 16777216); byte_of_Z (ack / 65536); byte_of_Z (ack / 256);
   byte_of_Z ack;
   byte_of_Z b13; byte_of_Z b14; byte_of_Z (win / 256); byte_of_Z win;
   byte_of_Z (ck / 256); byte_of_Z ck; byte_of_Z (up / 256); byte_of_Z up].
Proof.
  unfold TCPGenerator.fmt. cbn [Struct.encode Struct.size].
  rewrite !be_bytes_1, !be_bytes_2, !be_bytes_4. reflexivity.
Qed.

Lemma tcp_encode_length (self : TCPGenerator.t) (ck : Z) :
  length (Struct.encode TCPGenerator.fmt (tcp_args self ck)) = 20%nat.
Proof. unfold tcp_args. rewrite tcp_encode. reflexivity. Qed.

Lemma tcp_in_range_fits (self : TCPGenerator.t) (ck : Z) :
  TCPGenerator.in_range self -> 0 <= ck < 65536 ->
  Struct.fits_all TCPGenerator.fmt (tcp_args self ck) = true.
Proof.
  intros Hr Hck. destruct (tcp_packed_bytes self Hr) as (E13 & E14).
  unfold tcp_args. rewrite E13, E14.
  unfold TCPGenerator.fmt. cbn [Struct.fits_all].
  rewrite !andb_true_iff, !fitsb_H, !fitsb_I, !fitsb_B.
  unfold TCPGenerator.in_range in Hr.
  change (2 ^ 16) with 65536 in Hr. change (2 ^ 32) with 4294967296 in Hr.
  change (2 ^ 4) with 16 in Hr.
  intuition lia.
Qed.

Lemma tcp_pseudo_fits (self : TCPGenerator.t) :
  IPGenerator.in_range (TCPGenerator.ip self) ->
  0 <= TCPGenerator.tcp_hdr_length self * 4 + len (TCPGenerator.payload self) < 65536 ->
  Struct.fits_all TCPGenerator.pseudo_fmt (tcp_pseudo_args self) = true.
Proof.
  intros Hr Hl. unfold tcp_pseudo_args, TCPGenerator.pseudo_fmt.
  cbn [Struct.fits_all].
  rewrite !andb_true_iff, !fitsb_H, !fitsb_I, !fitsb_B.
  unfold IPGenerator.in_range in Hr.
  change (2 ^ 8) with 256 in Hr. change (2 ^ 32) with 4294967296 in Hr.
  intuition lia.
Qed.

(** A returning [TCPGenerator.pack], read off [tcp_pack_eq]. *)
Lemma tcp_pack_returned (self self' : TCPGenerator.t) (out : bytes) :
  TCPGenerator.pack self = (self', Returned out) ->
  let ck := chksum (Struct.encode TCPGenerator.pseudo_fmt (tcp_pseudo_args self)
                    ++ Struct.encode TCPGenerator.fmt (tcp_args self 0)
                    ++ TCPGenerator.payload self) in
  let tcp_data := Struct.encode TCPGenerator.fmt (tcp_args self ck) in
  exists ip' ip_data,
    IPGenerator.pack (TCPGenerator.ip self)
      (len (tcp_data ++ TCPGenerator.payload self)) = (ip', Returned ip_data) /\
    self' = TCPGenerator.set_ip (TCPGenerator.set_tcp_hdr_chksum self ck) ip' /\
    out = ip_data ++ tcp_data ++ TCPGenerator.payload self /\
    length ip_data = 20%nat.
Proof.
  rewrite tcp_pack_eq. cbv zeta.
  destruct (negb _); [discriminate |].
  destruct (_ && _); [| discriminate].
  destruct (IPGenerator.pack _ _) as [ip' [ip_data | e | e]] eqn:Eip;
    cbn [fst snd TCPGenerator.handler]; try discriminate.
  intros H. injection H as <- <-.
  exists ip', ip_data. repeat split.
  apply ip_pack_returned in Eip. destruct Eip as (_ & _ & ->).
  apply ip_encode_length.
Qed.

(** X9: with the TCP and IP fields in range, no options, and lengths that
    fit 16 bits, [pack] returns the IP header, twenty bytes of TCP header
    and the payload; read by the RFC 793 layout the TCP header gives back
    ports, sequence and acknowledgment numbers, header length, the nine
    flags, window and urgent pointer; its three reserved bits are zero
    whatever [tcp_reserved] holds; and the total length in the IP header is
    the IP header length plus the twenty bytes and the payload. *)
Theorem tcp_pack_round_trip (self : TCPGenerator.t) :
  TCPGenerator.in_range self ->
  IPGenerator.in_range (TCPGenerator.ip self) ->
  TCPGenerator.tcp_opts self = 0 ->
  TCPGenerator.tcp_hdr_length self * 4 + len (TCPGenerator.payload self) < 65536 ->
  IPGenerator.ip_hdr_len (TCPGenerator.ip self) * 4 + 20
    + len (TCPGenerator.payload self) < 65536 ->
  exists self' out,
    TCPGenerator.pack self = (self', Returned out) /\
    length out = (40 + length (TCPGenerator.payload self))%nat /\
    skipn 40 out = TCPGenerator.payload self /\
    RFC791.total_length (RFC791.parse out) =
      IPGenerator.ip_hdr_len (TCPGenerator.ip self) * 4 + 20
      + len (TCPGenerator.payload self) /\
    let f := RFC793.parse (skipn 20 out) in
    RFC793.source_port f = TCPGenerator.tcp_src_port self /\
    RFC793.destination_port f = TCPGenerator.tcp_dst_port self /\
    RFC793.sequence_number f = TCPGenerator.tcp_sqn self /\
    RFC793.acknowledgment_number f = TCPGenerator.tcp_ack self /\
    RFC793.data_offset f = TCPGenerator.tcp_hdr_length self /\
    RFC793.reserved f = 0 /\
    RFC793.ns f = TCPGenerator.tcp_flag_ns self /\
    RFC793.cwr f = TCPGenerator.tcp_flag_cwr self /\
    RFC793.ece f = TCPGenerator.tcp_flag_ece self /\
    RFC793.urg f = TCPGenerator.tcp_flag_urg self /\
    RFC793.ack f = TCPGenerator.tcp_flag_ack self /\
    RFC793.psh f = TCPGenerator.tcp_flag_psh self /\
    RFC793.rst f = TCPGenerator.tcp_flag_rst self /\
    RFC793.syn f = TCPGenerator.tcp_flag_syn self /\
    RFC793.fin f = TCPGenerator.tcp_flag_fin self /\
    RFC793.window f = TCPGenerator.tcp_win_size self /\
    RFC793.checksum f = TCPGenerator.tcp_hdr_chksum self' /\
    RFC793.urgent_pointer f = TCPGenerator.tcp_urg_pntr self.
Proof.
  intros Hr Hipr Hopts Hlen Hiplen.
  assert (Hpl : 0 <= len (TCPGenerator.payload self)) by (unfold len; lia).
  assert (Hhl : 0 <= TCPGenerator.tcp_hdr_length self)
    by (unfold TCPGenerator.in_range in Hr; tauto).
  assert (Hihl : 0 <= IPGenerator.ip_hdr_len (TCPGenerator.ip self))
    by (unfold IPGenerator.in_range in Hipr; tauto).
  rewrite tcp_pack_eq, Hopts. cbn [Z.eqb negb].
  rewrite tcp_pseudo_fits by (try assumption; lia).
  rewrite tcp_in_range_fits by (try assumption; lia).
  cbn [andb]. cbv zeta.
  match goal with |- context [chksum ?d] =>
    pose proof (chksum_range d) as Hck; set (ck := chksum d) in * end.
  assert (Hl : len (Struct.encode TCPGenerator.fmt (tcp_args self ck)
                    ++ TCPGenerator.payload self)
               = 20 + len (TCPGenerator.payload self)).
  { unfold len. rewrite length_app, tcp_encode_length. lia. }
  rewrite Hl.
  rewrite (ip_pack_in_range _ _ Hipr) by lia.
  cbv zeta. cbn [fst snd].
  eexists. eexists. split; [reflexivity |].
  split; [now rewrite !length_app, ip_encode_length, tcp_encode_length |].
  split.
  { rewrite app_assoc. apply skipn_app_exact.
    now rewrite length_app, ip_encode_length, tcp_encode_length. }
  split.
  { unfold ip_args. rewrite ip_encode.
    unfold RFC791.parse, RFC791.u16, RFC791.u8.
    cbn [RFC791.total_length nth Nat.add app].
    rewrite !byte_val_of_Z. Z.div_mod_to_equations. lia. }
  rewrite (skipn_app_exact _ 20) by apply ip_encode_length.
  destruct (tcp_packed_bytes self Hr) as (E13 & E14).
  unfold tcp_args. rewrite E13, E14, tcp_encode.
  unfold RFC793.parse, RFC793.bit, RFC791.u32, RFC791.u16, RFC791.u8.
  cbn [RFC793.source_port RFC793.destination_port RFC793.sequence_number
       RFC793.acknowledgment_number RFC793.data_offset RFC793.reserved
       RFC793.ns RFC793.cwr RFC793.ece RFC793.urg RFC793.ack RFC793.psh
       RFC793.rst RFC793.syn RFC793.fin RFC793.window RFC793.checksum
       RFC793.urgent_pointer nth Nat.add app
       TCPGenerator.set_ip TCPGenerator.set_tcp_hdr_chksum
       TCPGenerator.tcp_hdr_chksum].
  rewrite !byte_val_of_Z.
  rewrite !land_1, land_7.
  rewrite !Z.shiftr_div_pow2 by lia.
  change (2 ^ 0) with 1. change (2 ^ 1) with 2. change (2 ^ 2) with 4.
  change (2 ^ 3) with 8. change (2 ^ 4) with 16. change (2 ^ 5) with 32.
  change (2 ^ 6) with 64. change (2 ^ 7) with 128.
  unfold TCPGenerator.in_range in Hr.
  change (2 ^ 16) with 65536 in Hr. change (2 ^ 32) with 4294967296 in Hr.
  change (2 ^ 4) with 16 in Hr.
  destruct Hr as (Hsp & Hdp & Hsq & Hak & Hl4 & Hns & Hcwr & Hece & Hurg & Hack
                  & Hpsh & Hrst & Hsyn & Hfin & Hwin & Hup).
  repeat (split; [Z.div_mod_to_equations; lia |]).
  Z.div_mod_to_equations; lia.
Qed.

Lemma tcp_init_in_range (payload : bytes) (sqn : Z) :
  0 <= sqn < 4294967296 -> TCPGenerator.in_range (TCPGenerator.init payload sqn).
Proof.
  intros H. unfold TCPGenerator.in_range. cbn. change (2 ^ 32) with 4294967296.
  lia.
Qed.

Lemma tcp_pack_round_trip_witness :
  exists self' out,
    TCPGenerator.pack
      (TCPGenerator.set_dst_port
         (TCPGenerator.set_src_port (TCPGenerator.init [x68; x69] 7) 12345) 21)
    = (self', Returned out) /\
    RFC793.source_port (RFC793.parse (skipn 20 out)) = 12345 /\
    RFC793.destination_port (RFC793.parse (skipn 20 out)) = 21 /\
    skipn 40 out = [x68; x69].
Proof.
  destruct (tcp_pack_round_trip
              (TCPGenerator.set_dst_port
                 (TCPGenerator.set_src_port (TCPGenerator.init [x68; x69] 7) 12345) 21))
    as (self' & out & E & _ & Hpl & _ & Hsp & Hdp & _).
  - unfold TCPGenerator.in_range. cbn. lia.
  - apply init_in_range.
  - reflexivity.
  - cbn. lia.
  - cbn. lia.
  - exists self', out. split; [exact E |]. split; [exact Hsp |].
    split; [exact Hdp | exact Hpl].
Defined.

(** X10: whenever [pack] returns on a payload of even length, the TCP
    checksum in the packet is right: the pseudo header followed by the TCP
    header and payload as sent has [chksum] 0 and RFC 1071 checksum 0. *)
Theorem tcp_pack_checksum_valid (self self' : TCPGenerator.t) (out : bytes) :
  TCPGenerator.pack self = (self', Returned out) ->
  Nat.even (length (TCPGenerator.payload self)) = true ->
  chksum (Struct.encode TCPGenerator.pseudo_fmt (tcp_pseudo_args self)
          ++ skipn 20 out) = 0 /\
  RFC1071.checksum (Struct.encode TCPGenerator.pseudo_fmt (tcp_pseudo_args self)
                    ++ skipn 20 out) = 0.
Proof.
  intros H Hev. apply tcp_pack_returned in H. cbv zeta in H.
  destruct H as (ip' & ip_data & _ & _ & -> & Hlen).
  rewrite (skipn_app_exact _ 20) by exact Hlen.
  set (pseudo := Struct.encode TCPGenerator.pseudo_fmt (tcp_pseudo_args self)) in *.
  assert (Hsplit : exists T : bytes, length T = 16%nat /\
            forall ck, Struct.encode TCPGenerator.fmt (tcp_args self ck)
                       = T ++ Struct.be_bytes 2 ck
                         ++ Struct.be_bytes 2 (TCPGenerator.tcp_urg_pntr self)).
  { exists (Struct.encode [Struct.H; Struct.H; Struct.I; Struct.I; Struct.B;
                           Struct.B; Struct.H] (firstn 7 (tcp_args self 0))).
    split; reflexivity. }
  destruct Hsplit as (T & HT & Hsplit).
  set (U := Struct.be_bytes 2 (TCPGenerator.tcp_urg_pntr self)) in *.
  assert (Hassoc : forall B : bytes,
            pseudo ++ (T ++ B ++ U) ++ TCPGenerator.payload self
            = (pseudo ++ T) ++ B ++ (U ++ TCPGenerator.payload self))
    by (intros; now rewrite <- !app_assoc).
  assert (Hev' : Nat.even (length (U ++ TCPGenerator.payload self)) = true).
  { rewrite length_app, Nat.even_add, Hev. reflexivity. }
  assert (Hc : chksum (pseudo ++ Struct.encode TCPGenerator.fmt
                 (tcp_args self
                    (chksum (pseudo ++ Struct.encode TCPGenerator.fmt (tcp_args self 0)
                             ++ TCPGenerator.payload self)))
                 ++ TCPGenerator.payload self) = 0).
  { rewrite !Hsplit, !Hassoc. now apply chksum_field_verifies. }
  split; [exact Hc |].
  rewrite chksum_int in Hc. rewrite rfc1071_int; [exact Hc |].
  assert (Hp : length pseudo = 12%nat) by reflexivity.
  rewrite !length_app, Hp, tcp_encode_length, !Nat.even_add, Hev. reflexivity.
Qed.

Lemma tcp_pack_checksum_valid_witness :
  exists self' out,
    TCPGenerator.pack (TCPGenerator.init [x68; x69] 7) = (self', Returned out) /\
    RFC1071.checksum
      (Struct.encode TCPGenerator.pseudo_fmt
         (tcp_pseudo_args (TCPGenerator.init [x68; x69] 7)) ++ skipn 20 out) = 0.
Proof.
  assert (E : exists self' out,
             TCPGenerator.pack (TCPGenerator.init [x68; x69] 7)
             = (self', Returned out))
    by (eexists; eexists; vm_compute; reflexivity).
  destruct E as (self' & out & E).
  destruct (tcp_pack_checksum_valid _ _ _ E) as (_ & H); [reflexivity |].
  exists self', out. split; [exact E | exact H].
Defined.

(** X11: however [TCPGenerator.pack] ends, no exception reaches the
    caller; a call that does not return has ended in a handler, and has not
    advanced the IP identifier. *)
Theorem tcp_pack_failure (self self' : TCPGenerator.t) (r : outcome bytes) :
  TCPGenerator.pack self = (self', r) ->
  (forall e, r <> Raised e) /\
  ((forall out, r <> Returned out) ->
   (exists e, r = Exited e) /\
   IPGenerator.ip_id (TCPGenerator.ip self') =
   IPGenerator.ip_id (TCPGenerator.ip self)).
Proof.
  rewrite tcp_pack_eq. cbv zeta.
  destruct (negb _).
  { intros H. injection H as <- <-. split; [discriminate |].
    intros _. split; [now eexists | reflexivity]. }
  destruct (_ && _).
  2: { intros H. injection H as <- <-. split; [discriminate |].
       intros _. split; [now eexists | reflexivity]. }
  rewrite ip_pack_eq. cbv zeta.
  destruct (Struct.fits_all IPGenerator.fmt _); cbn [fst snd TCPGenerator.handler];
    intros H; injection H as <- <-.
  - split; [discriminate |]. intros Hr. now destruct (Hr _ eq_refl).
  - split; [discriminate |]. intros _. split; [now eexists | reflexivity].
Qed.

Lemma tcp_pack_failure_witness :
  IPGenerator.ip_id
    (TCPGenerator.ip
       (fst (TCPGenerator.pack
               (TCPGenerator.set_src_port (TCPGenerator.init [] 0) 65536)))) = 1.
Proof.
  destruct (TCPGenerator.pack
              (TCPGenerator.set_src_port (TCPGenerator.init [] 0) 65536))
    as [self' r] eqn:E.
  destruct (tcp_pack_failure _ _ _ E) as (_ & H).
  destruct H as (_ & Hid).
  - intros out ->. vm_compute in E. discriminate.
  - exact Hid.
Defined.

(** ** The ICMP message *)

Lemma icmp_encode (ty code ck opt : Z) :
  Struct.encode ICMPGenerator.fmt [ty; code; ck; opt] =
  [byte_of_Z ty; byte_of_Z code; byte_of_Z (ck / 256); byte_of_Z ck;
   byte_of_Z (opt / 16777216); byte_of_Z (opt / 65536); byte_of_Z (opt / 256);
   byte_of_Z opt].
Proof.
  unfold ICMPGenerator.fmt. cbn [Struct.encode Struct.size].
  rewrite !be_bytes_1, !be_bytes_2, !be_bytes_4. reflexivity.
Qed.

Lemma icmp_encode_length (self : ICMPGenerator.t) (ck : Z) :
  length (Struct.encode ICMPGenerator.fmt (icmp_args self ck)) = 8%nat.
Proof. unfold icmp_args. rewrite icmp_encode. reflexivity. Qed.

Lemma icmp_fits (self : ICMPGenerator.t) (ck : Z) :
  Struct.fits_all ICMPGenerator.fmt (icmp_args self ck) = true <->
  0 <= ICMPGenerator.icmp_type self < 256 /\
  0 <= ICMPGenerator.icmp_code self < 256 /\
  0 <= ck < 65536 /\
  0 <= ICMPGenerator.icmp_opt self < 4294967296.
Proof.
  unfold icmp_args, ICMPGenerator.fmt. cbn [Struct.fits_all].
  rewrite !andb_true_iff, !fitsb_H, !fitsb_I, !fitsb_B. tauto.
Qed.

Lemma icmp_pack_returned (self self' : ICMPGenerator.t) (out : bytes) :
  ICMPGenerator.pack self = (self', Returned out) ->
  let ck := chksum (Struct.encode ICMPGenerator.fmt (icmp_args self 0)
                    ++ ICMPGenerator.payload self) in
  let icmp_data := Struct.encode ICMPGenerator.fmt (icmp_args self ck)
                   ++ ICMPGenerator.payload self in
  exists ip' ip_data,
    IPGenerator.pack (ICMPGenerator.ip self) (len icmp_data) = (ip', Returned ip_data) /\
    self' = ICMPGenerator.set_ip (ICMPGenerator.set_icmp_hdr_chksum self ck) ip' /\
    out = ip_data ++ icmp_data /\
    length ip_data = 20%nat.
Proof.
  rewrite icmp_pack_eq. cbv zeta.
  destruct (Struct.fits_all _ _); [| discriminate].
  destruct (IPGenerator.pack _ _) as [ip' [ip_data | e | e]] eqn:Eip;
    cbn [fst snd]; try discriminate.
  intros H. injection H as <- <-.
  exists ip', ip_data. repeat split.
  apply ip_pack_returned in Eip. destruct Eip as (_ & _ & ->).
  apply ip_encode_length.
Qed.

(** X12: with the ICMP and IP fields in range and a total length that
    fits 16 bits, [pack] returns the IP header followed by the ICMP message;
    read by the RFC 792 layout the message gives back type, code and the
    32-bit option field, carries the stored checksum, and its data is the
    payload; the IP total length counts the 8-byte ICMP header and the
    payload. *)
Theorem icmp_pack_round_trip (self : ICMPGenerator.t) :
  ICMPGenerator.in_range self ->
  IPGenerator.in_range (ICMPGenerator.ip self) ->
  IPGenerator.ip_hdr_len (ICMPGenerator.ip self) * 4 + 8
    + len (ICMPGenerator.payload self) < 65536 ->
  exists self' out,
    ICMPGenerator.pack self = (self', Returned out) /\
    length out = (28 + length (ICMPGenerator.payload self))%nat /\
    RFC791.total_length (RFC791.parse out) =
      IPGenerator.ip_hdr_len (ICMPGenerator.ip self) * 4 + 8
      + len (ICMPGenerator.payload self) /\
    let m := RFC792.parse (skipn 20 out) in
    RFC792.type m = ICMPGenerator.icmp_type self /\
    RFC792.code m = ICMPGenerator.icmp_code self /\
    RFC792.checksum m = ICMPGenerator.icmp_hdr_chksum self' /\
    RFC792.option m = ICMPGenerator.icmp_opt self /\
    RFC792.data m = ICMPGenerator.payload self.
Proof.
  intros Hr Hipr Hiplen.
  assert (Hpl : 0 <= len (ICMPGenerator.payload self)) by (unfold len; lia).
  assert (Hihl : 0 <= IPGenerator.ip_hdr_len (ICMPGenerator.ip self))
    by (unfold IPGenerator.in_range in Hipr; tauto).
  unfold ICMPGenerator.in_range in Hr.
  change (2 ^ 8) with 256 in Hr. change (2 ^ 32) with 4294967296 in Hr.
  rewrite icmp_pack_eq.
  rewrite (proj2 (icmp_fits self 0)) by (intuition lia).
  cbv zeta.
  match goal with |- context [chksum ?d] =>
    pose proof (chksum_range d) as Hck; set (ck := chksum d) in * end.
  assert (Hl : len (Struct.encode ICMPGenerator.fmt (icmp_args self ck)
                    ++ ICMPGenerator.payload self)
               = 8 + len (ICMPGenerator.payload self)).
  { unfold len. rewrite length_app, icmp_encode_length. lia. }
  rewrite Hl.
  rewrite (ip_pack_in_range _ _ Hipr) by lia.
  cbv zeta. cbn [fst snd].
  eexists. eexists. split; [reflexivity |].
  split; [now rewrite !length_app, ip_encode_length, icmp_encode_length |].
  split.
  { unfold ip_args. rewrite ip_encode.
    unfold RFC791.parse, RFC791.u16, RFC791.u8.
    cbn [RFC791.total_length nth Nat.add app].
    rewrite !byte_val_of_Z. Z.div_mod_to_equations. lia. }
  rewrite (skipn_app_exact _ 20) by apply ip_encode_length.
  unfold icmp_args. rewrite icmp_encode.
  unfold RFC792.parse, RFC791.u32, RFC791.u16, RFC791.u8.
  cbn [RFC792.type RFC792.code RFC792.checksum RFC792.option RFC792.data
       nth Nat.add app skipn
       ICMPGenerator.set_ip ICMPGenerator.set_icmp_hdr_chksum
       ICMPGenerator.icmp_hdr_chksum].
  rewrite !byte_val_of_Z.
  repeat (split; [try reflexivity; Z.div_mod_to_equations; lia |]).
  reflexivity.
Qed.

Lemma icmp_pack_round_trip_witness :
  exists self' out,
    ICMPGenerator.pack (ICMPGenerator.init Constants.ECHO_REQUEST [x68; x69] 0)
    = (self', Returned out) /\
    RFC792.type (RFC792.parse (skipn 20 out)) = 8 /\
    RFC792.data (RFC792.parse (skipn 20 out)) = [x68; x69].
Proof.
  destruct (icmp_pack_round_trip
              (ICMPGenerator.init Constants.ECHO_REQUEST [x68; x69] 0))
    as (self' & out & E & _ & _ & Ht & _ & _ & _ & Hd).
  - unfold ICMPGenerator.in_range. cbn. lia.
  - apply init_in_range.
  - cbn. lia.
  - exists self', out. split; [exact E |]. split; [exact Ht | exact Hd].
Defined.

Lemma icmp_pack_verifies (self self' : ICMPGenerator.t) (out : bytes) :
  ICMPGenerator.pack self = (self', Returned out) ->
  Nat.even (length (ICMPGenerator.payload self)) = true ->
  chksum (skipn 20 out) = 0 /\ RFC1071.checksum (skipn 20 out) = 0.
Proof.
  intros H Hev. apply icmp_pack_returned in H. cbv zeta in H.
  destruct H as (ip' & ip_data & _ & _ & -> & Hlen).
  rewrite (skipn_app_exact _ 20) by exact Hlen.
  assert (Hsplit : exists T O : bytes, length T = 2%nat /\ length O = 4%nat /\
            forall ck, Struct.encode ICMPGenerator.fmt (icmp_args self ck)
                       = T ++ Struct.be_bytes 2 ck ++ O).
  { exists (Struct.encode [Struct.B; Struct.B] (firstn 2 (icmp_args self 0))),
           (Struct.be_bytes 4 (ICMPGenerator.icmp_opt self)).
    repeat split. }
  destruct Hsplit as (T & O & HT & HO & Hsplit).
  assert (Hassoc : forall B : bytes,
            (T ++ B ++ O) ++ ICMPGenerator.payload self
            = T ++ B ++ (O ++ ICMPGenerator.payload self))
    by (intros; now rewrite <- !app_assoc).
  assert (Hev' : Nat.even (length (O ++ ICMPGenerator.payload self)) = true).
  { rewrite length_app, Nat.even_add, Hev, HO. reflexivity. }
  assert (Hc : chksum (Struct.encode ICMPGenerator.fmt
                 (icmp_args self
                    (chksum (Struct.encode ICMPGenerator.fmt (icmp_args self 0)
                             ++ ICMPGenerator.payload self)))
                 ++ ICMPGenerator.payload self) = 0).
  { rewrite !Hsplit, !Hassoc. now apply chksum_field_verifies. }
  split; [exact Hc |].
  rewrite chksum_int in Hc. rewrite rfc1071_int; [exact Hc |].
  rewrite !length_app, icmp_encode_length, !Nat.even_add, Hev. reflexivity.
Qed.

(** X13: whenever [pack] returns on a payload of even length, the ICMP
    checksum in the packet is right: the ICMP message as sent has [chksum]
    0 and RFC 1071 checksum 0. *)
Theorem icmp_pack_checksum_valid (self self' : ICMPGenerator.t) (out : bytes) :
  ICMPGenerator.pack self = (self', Returned out) ->
  Nat.even (length (ICMPGenerator.payload self)) = true ->
  chksum (skipn 20 out) = 0 /\ RFC1071.checksum (skipn 20 out) = 0.
Proof. apply icmp_pack_verifies. Qed.

Lemma icmp_pack_checksum_valid_witness :
  exists self' out,
    ICMPGenerator.pack (ICMPGenerator.init Constants.ECHO_REQUEST [x68; x69] 0)
    = (self', Returned out) /\
    RFC1071.checksum (skipn 20 out) = 0.
Proof.
  assert (E : exists self' out,
             ICMPGenerator.pack (ICMPGenerator.init Constants.ECHO_REQUEST [x68; x69] 0)
             = (self', Returned out))
    by (eexists; eexists; vm_compute; reflexivity).
  destruct E as (self' & out & E).
  destruct (icmp_pack_checksum_valid _ _ _ E) as (_ & H); [reflexivity |].
  exists self', out. split; [exact E | exact H].
Defined.

(** X14: a call of [ICMPGenerator.pack] that does not return has not
    advanced the IP identifier, and has either let the [struct.error] of its
    own header reach the caller, the inherited IP attributes untouched, or
    ended in the handler of [IPGenerator.pack]. *)
Theorem icmp_pack_failure (self self' : ICMPGenerator.t) (r : outcome bytes) :
  ICMPGenerator.pack self = (self', r) ->
  (forall out, r <> Returned out) ->
  IPGenerator.ip_id (ICMPGenerator.ip self') =
    IPGenerator.ip_id (ICMPGenerator.ip self) /\
  (r = Raised StructError /\ ICMPGenerator.ip self' = ICMPGenerator.ip self
   \/ r = Exited StructError).
Proof.
  rewrite icmp_pack_eq. cbv zeta.
  destruct (Struct.fits_all ICMPGenerator.fmt _).
  2: { intros H _. injection H as <- <-. split; [reflexivity |]. now left. }
  rewrite ip_pack_eq. cbv zeta.
  destruct (Struct.fits_all IPGenerator.fmt _); cbn [fst snd];
    intros H Hr; injection H as <- <-.
  - now destruct (Hr _ eq_refl).
  - split; [reflexivity |]. now right.
Qed.

Lemma icmp_pack_failure_witness :
  ICMPGenerator.pack (ICMPGenerator.init Constants.ECHO_REQUEST [] 256) =
  (ICMPGenerator.init Constants.ECHO_REQUEST [] 256, Raised StructError).
Proof.
  destruct (ICMPGenerator.pack (ICMPGenerator.init Constants.ECHO_REQUEST [] 256))
    as [self' r] eqn:E.
  destruct (icmp_pack_failure _ _ _ E) as (_ & [(-> & _) | ->]).
  - intros out ->. vm_compute in E. discriminate.
  - vm_compute in E. injection E as <-. reflexivity.
  - vm_compute in E. discriminate.
Defined.

(** ** [Ping] *)

Lemma len_even (A : Type) (l : list A) :
  (len l mod 2 =? 0) = Nat.even (length l).
Proof.
  unfold len. induction (length l) as [| n IH]; [reflexivity |].
  rewrite Nat.even_succ, <- Nat.negb_even, <- IH, Nat2Z.inj_succ.
  destruct (Z.eqb_spec (Z.of_nat n mod 2) 0);
    destruct (Z.eqb_spec (Z.succ (Z.of_nat n) mod 2) 0);
    try reflexivity; exfalso; Z.div_mod_to_equations; lia.
Qed.

(** X15: [Ping(message)] always holds a payload of even length, the
    message itself or the message followed by one space; it is an echo
    request with code 0, and for an identifier below [0x10000] the option
    field reads as that identifier with sequence number 0. *)
Theorem ping_init (message : bytes) (id_ : Z) :
  0 <= id_ < 0x10000 ->
  let self := Ping.init message id_ in
  Nat.even (length (ICMPGenerator.payload self)) = true /\
  ICMPGenerator.payload self =
    (if Nat.even (length message) then message else message ++ [x20]) /\
  ICMPGenerator.icmp_type self = 8 /\
  ICMPGenerator.icmp_code self = 0 /\
  Ping.identifier self = id_ /\
  Ping.sequence_number self = 0 /\
  ICMPGenerator.in_range self.
Proof.
  intros Hid. cbv zeta. unfold Ping.init, Ping.identifier, Ping.sequence_number.
  rewrite len_even.
  cbn [ICMPGenerator.set_icmp_opt ICMPGenerator.init ICMPGenerator.payload
       ICMPGenerator.icmp_type ICMPGenerator.icmp_code ICMPGenerator.icmp_opt
       Constants.ICMPType_value].
  rewrite !land_ffff, shiftr_16, Z.shiftl_mul_pow2 by lia.
  change (2 ^ 16) with 65536.
  split.
  { destruct (Nat.even (length message)) eqn:E; cbn [negb]; [exact E |].
    rewrite length_app, Nat.even_add, E. reflexivity. }
  split; [destruct (Nat.even (length message)); reflexivity |].
  split; [reflexivity |]. split; [reflexivity |].
  split; [Z.div_mod_to_equations; lia |].
  split; [Z.div_mod_to_equations; lia |].
  unfold ICMPGenerator.in_range.
  cbn [ICMPGenerator.set_icmp_opt ICMPGenerator.init
       ICMPGenerator.icmp_type ICMPGenerator.icmp_code ICMPGenerator.icmp_opt
       Constants.ICMPType_value].
  change (2 ^ 8) with 256.
  change (2 ^ 32) with 4294967296. lia.
Qed.

Lemma ping_init_witness :
  ICMPGenerator.payload (Ping.init [x68; x69; x21] 0x1234) = [x68; x69; x21; x20] /\
  Ping.identifier (Ping.init [x68; x69; x21] 0x1234) = 0x1234.
Proof.
  destruct (ping_init [x68; x69; x21] 0x1234) as (_ & Hp & _ & _ & Hi & _);
    [lia |].
  split; [exact Hp | exact Hi].
Defined.

(** X16: while the sequence number is below [0xFFFF], [Ping.pack] adds
    one to it and leaves the identifier alone, however the call ends. *)
Theorem ping_pack_sequence (self : ICMPGenerator.t) :
  Ping.sequence_number self < 0xFFFF ->
  Ping.sequence_number (fst (Ping.pack self)) = Ping.sequence_number self + 1 /\
  Ping.identifier (fst (Ping.pack self)) = Ping.identifier self.
Proof.
  unfold Ping.sequence_number, Ping.identifier, Ping.pack.
  rewrite icmp_pack_opt. cbn [ICMPGenerator.set_icmp_opt ICMPGenerator.icmp_opt].
  rewrite !land_ffff, !shiftr_16. intros H.
  split; Z.div_mod_to_equations; lia.
Qed.

Lemma ping_pack_sequence_witness :
  Ping.sequence_number (fst (Ping.pack (Ping.init [] 0x1234))) = 1 /\
  Ping.identifier (fst (Ping.pack (Ping.init [] 0x1234))) = 0x1234.
Proof.
  destruct (ping_pack_sequence (Ping.init [] 0x1234)) as (Hs & Hi).
  - vm_compute. reflexivity.
  - split; [exact Hs | exact Hi].
Defined.

Lemma icmp_pack_payload (self : ICMPGenerator.t) :
  ICMPGenerator.payload (fst (ICMPGenerator.pack self)) =
  ICMPGenerator.payload self.
Proof.
  rewrite icmp_pack_eq. cbv zeta.
  destruct (Struct.fits_all _ _); reflexivity.
Qed.

(** X17: [Ping.pack] never changes the payload, and whenever it returns
    on an object whose payload has even length, as every payload built by
    [Ping(message)] has, the echo request it returns carries a right
    checksum: the ICMP message has RFC 1071 checksum 0. *)
Theorem ping_pack_checksum_valid (self self' : ICMPGenerator.t) (out : bytes) :
  Ping.pack self = (self', Returned out) ->
  Nat.even (length (ICMPGenerator.payload self)) = true ->
  ICMPGenerator.payload self' = ICMPGenerator.payload self /\
  chksum (skipn 20 out) = 0 /\
  RFC1071.checksum (skipn 20 out) = 0.
Proof.
  unfold Ping.pack. intros H Hev.
  split.
  - pose proof (icmp_pack_payload
                  (ICMPGenerator.set_icmp_opt self (ICMPGenerator.icmp_opt self + 1)))
      as Hp.
    rewrite H in Hp. exact Hp.
  - apply (icmp_pack_verifies _ _ _ H). exact Hev.
Qed.

Lemma ping_pack_checksum_valid_witness :
  exists self' out,
    Ping.pack (Ping.init [x68; x69; x21] 0x1234) = (self', Returned out) /\
    RFC1071.checksum (skipn 20 out) = 0.
Proof.
  assert (E : exists self' out,
             Ping.pack (Ping.init [x68; x69; x21] 0x1234) = (self', Returned out))
    by (eexists; eexists; vm_compute; reflexivity).
  destruct E as (self' & out & E).
  destruct (ping_pack_checksum_valid _ _ _ E) as (_ & _ & H); [reflexivity |].
  exists self', out. split; [exact E | exact H].
Defined.

(** X18: once the option field has reached [0xFFFFFFFF], [Ping.pack]
    lets a [struct.error] reach the caller: the field, incremented before
    the header is packed, no longer fits 32 bits; the object keeps the
    incremented field and a zeroed checksum, and its IP attributes are
    untouched. *)
Theorem ping_pack_option_overflow (self : ICMPGenerator.t) :
  0xFFFFFFFF <= ICMPGenerator.icmp_opt self ->
  Ping.pack self =
    (ICMPGenerator.set_icmp_hdr_chksum
       (ICMPGenerator.set_icmp_opt self (ICMPGenerator.icmp_opt self + 1)) 0,
     Raised StructError).
Proof.
  intros H. unfold Ping.pack. rewrite icmp_pack_eq.
  destruct (Struct.fits_all _ _) eqn:E; [| reflexivity].
  apply icmp_fits in E.
  cbn [ICMPGenerator.set_icmp_opt ICMPGenerator.icmp_opt] in E. lia.
Qed.

Lemma ping_pack_option_overflow_witness :
  snd (Ping.pack (ICMPGenerator.set_icmp_opt (Ping.init [] 0xFFFF) 0xFFFFFFFF))
  = Raised StructError.
Proof.
  rewrite (ping_pack_option_overflow
             (ICMPGenerator.set_icmp_opt (Ping.init [] 0xFFFF) 0xFFFFFFFF)).
  - reflexivity.
  - cbn. lia.
Defined.

(** ** More on [chksum] and [_carry_around_add] *)

Lemma oc_norm_congr (n m k : Z) :
  0 <= n -> 0 <= m -> n = m + 0xFFFF * k -> (m = 0 <-> n = 0) ->
  oc_norm n = oc_norm m.
Proof.
  intros Hn Hm E Hz.
  apply (oc_rel_unique _ _ n (oc_norm_rel n Hn)).
  apply oc_rel_cong with (m := m); [apply oc_norm_rel; exact Hm | | exact Hz].
  exists k. exact E.
Qed.

Lemma int_from_bytes_nonneg (bs : bytes) : 0 <= int_from_bytes bs.
Proof. apply int_from_bytes_bound. Qed.

(** The integer of [a ++ b], for [b] of even length, against the sum of
    the integers of [a] and [b]. *)
Lemma int_app_even (a b : bytes) :
  Nat.even (length b) = true ->
  exists j, 0 <= j /\
    int_from_bytes (a ++ b) =
    int_from_bytes a + int_from_bytes b + 0xFFFF * (j * int_from_bytes a).
Proof.
  intros Hb. destruct (pow256_even _ Hb) as (j & Hj & Ep).
  exists j. split; [exact Hj |].
  rewrite int_from_bytes_app. unfold len. rewrite Ep. ring.
Qed.

(** X19: the checksum does not depend on the order of the 16-bit words:
    for two byte sequences of even length, [chksum] of one followed by the
    other is [chksum] of the other followed by the one. *)
Theorem chksum_app_comm (a b : bytes) :
  Nat.even (length a) = true -> Nat.even (length b) = true ->
  chksum (a ++ b) = chksum (b ++ a).
Proof.
  intros Ha Hb. rewrite !chksum_int. f_equal.
  destruct (int_app_even a b Hb) as (j & Hj & E).
  destruct (int_app_even b a Ha) as (i & Hi & E').
  pose proof (int_from_bytes_nonneg a) as Hna.
  pose proof (int_from_bytes_nonneg b) as Hnb.
  pose proof (int_from_bytes_nonneg (a ++ b)) as Hab.
  pose proof (int_from_bytes_nonneg (b ++ a)) as Hba.
  apply oc_norm_congr
    with (k := j * int_from_bytes a - i * int_from_bytes b); try assumption.
  - rewrite E, E'. ring.
  - rewrite E, E'. nia.
Qed.

Lemma chksum_app_comm_witness :
  chksum ([x45; x00] ++ [x00; x28; x12; x34]) =
  chksum ([x00; x28; x12; x34] ++ [x45; x00]).
Proof. apply (chksum_app_comm [x45; x00] [x00; x28; x12; x34]); reflexivity. Defined.

(** X20: on an input of odd length, [chksum] is the RFC 1071 checksum of
    the input with one zero byte put in front of it. *)
Theorem chksum_odd_length (header : bytes) :
  Nat.even (length header) = false ->
  chksum header = RFC1071.checksum (x00 :: header).
Proof.
  intros Hodd. rewrite chksum_int, rfc1071_int.
  - reflexivity.
  - cbn [length]. rewrite Nat.even_succ, <- Nat.negb_even, Hodd. reflexivity.
Qed.

Lemma chksum_odd_length_witness :
  chksum [x01; x02; x03] = RFC1071.checksum [x00; x01; x02; x03].
Proof. apply (chksum_odd_length [x01; x02; x03]). reflexivity. Defined.

(** X21: on 16-bit values [_carry_around_add] is commutative and
    associative, 0 is neutral, and [0xFFFF] is a second zero: added to a
    non-zero value it gives that value back, and the sum of two values is 0
    only when both are 0. *)
Theorem carry_around_add_algebra (a b c : Z) :
  0 <= a <= 0xFFFF -> 0 <= b <= 0xFFFF -> 0 <= c <= 0xFFFF ->
  _carry_around_add a b = _carry_around_add b a /\
  _carry_around_add (_carry_around_add a b) c =
    _carry_around_add a (_carry_around_add b c) /\
  _carry_around_add a 0 = a /\
  (a <> 0 -> _carry_around_add a 0xFFFF = a) /\
  (_carry_around_add a b = 0 <-> a = 0 /\ b = 0).
Proof.
  intros Ha Hb Hc.
  pose proof (carry_around_add_range a b Ha Hb) as Hab.
  pose proof (carry_around_add_range b c Hb Hc) as Hbc.
  rewrite (carry_around_add_cases (_carry_around_add a b) c) by assumption.
  rewrite (carry_around_add_cases a (_carry_around_add b c)) by assumption.
  rewrite (carry_around_add_cases a b), (carry_around_add_cases b a),
    (carry_around_add_cases b c), (carry_around_add_cases a 0),
    (carry_around_add_cases a 0xFFFF) by lia.
  destruct (Z.ltb_spec (a + b) 0x10000), (Z.ltb_spec (b + a) 0x10000),
    (Z.ltb_spec (b + c) 0x10000), (Z.ltb_spec (a + 0) 0x10000),
    (Z.ltb_spec (a + 0xFFFF) 0x10000);
    try lia;
    repeat match goal with
           | |- context [?x <? 0x10000] => destruct (Z.ltb_spec x 0x10000)
           end; lia.
Qed.

Lemma carry_around_add_algebra_witness :
  _carry_around_add (_carry_around_add 0xFFFF 0x8000) 0x8001 =
  _carry_around_add 0xFFFF (_carry_around_add 0x8000 0x8001).
Proof.
  destruct (carry_around_add_algebra 0xFFFF 0x8000 0x8001) as (_ & H & _);
    [lia | lia | lia | exact H].
Defined.

(** ** What [pack] leaves alone *)

(** X22: however it ends, [pack] changes none of the fields a user
    sets.  [IPGenerator.pack] assigns [ip_total_len], [ip_id] and
    [ip_hdr_chksum] only; [TCPGenerator.pack] assigns [tcp_hdr_chksum] and
    those three; [ICMPGenerator.pack] assigns [icmp_hdr_chksum] and those
    three. *)
Theorem pack_frame (ip : IPGenerator.t) (n : Z)
    (tcp : TCPGenerator.t) (icmp : ICMPGenerator.t) :
  (exists tl id ck, fst (IPGenerator.pack ip n) = ip_with ip tl id ck) /\
  (exists tl id ck ck',
     fst (TCPGenerator.pack tcp) =
     TCPGenerator.set_ip (TCPGenerator.set_tcp_hdr_chksum tcp ck')
       (ip_with (TCPGenerator.ip tcp) tl id ck)) /\
  (exists tl id ck ck',
     fst (ICMPGenerator.pack icmp) =
     ICMPGenerator.set_ip (ICMPGenerator.set_icmp_hdr_chksum icmp ck')
       (ip_with (ICMPGenerator.ip icmp) tl id ck)).
Proof.
  assert (Hip : forall ip n, exists tl id ck,
             fst (IPGenerator.pack ip n) = ip_with ip tl id ck).
  { intros ip0 n0. rewrite ip_pack_eq. cbv zeta.
    destruct (Struct.fits_all _ _); do 3 eexists; reflexivity. }
  assert (Hsame : forall ip0 : IPGenerator.t,
             ip0 = ip_with ip0 (IPGenerator.ip_total_len ip0)
                     (IPGenerator.ip_id ip0) (IPGenerator.ip_hdr_chksum ip0))
    by (intros []; reflexivity).
  split; [apply Hip |]. split.
  - rewrite tcp_pack_eq. cbv zeta.
    destruct (negb _); [| destruct (_ && _)]; cbn [fst].
    + exists (IPGenerator.ip_total_len (TCPGenerator.ip tcp)),
        (IPGenerator.ip_id (TCPGenerator.ip tcp)),
        (IPGenerator.ip_hdr_chksum (TCPGenerator.ip tcp)), 0.
      rewrite <- Hsame. now destruct tcp.
    + destruct (Hip (TCPGenerator.ip tcp)
                  (len (Struct.encode TCPGenerator.fmt
                          (tcp_args tcp
                             (chksum (Struct.encode TCPGenerator.pseudo_fmt
                                        (tcp_pseudo_args tcp)
                                      ++ Struct.encode TCPGenerator.fmt (tcp_args tcp 0)
                                      ++ TCPGenerator.payload tcp)))
                        ++ TCPGenerator.payload tcp)))
        as (tl & id & ck & E).
      rewrite E. do 4 eexists. reflexivity.
    + exists (IPGenerator.ip_total_len (TCPGenerator.ip tcp)),
        (IPGenerator.ip_id (TCPGenerator.ip tcp)),
        (IPGenerator.ip_hdr_chksum (TCPGenerator.ip tcp)), 0.
      rewrite <- Hsame. now destruct tcp.
  - rewrite icmp_pack_eq. cbv zeta.
    destruct (Struct.fits_all _ _); cbn [fst].
    + destruct (Hip (ICMPGenerator.ip icmp)
                  (len (Struct.encode ICMPGenerator.fmt
                          (icmp_args icmp
                             (chksum (Struct.encode ICMPGenerator.fmt (icmp_args icmp 0)
                                      ++ ICMPGenerator.payload icmp)))
                        ++ ICMPGenerator.payload icmp)))
        as (tl & id & ck & E).
      rewrite E. do 4 eexists. reflexivity.
    + exists (IPGenerator.ip_total_len (ICMPGenerator.ip icmp)),
        (IPGenerator.ip_id (ICMPGenerator.ip icmp)),
        (IPGenerator.ip_hdr_chksum (ICMPGenerator.ip icmp)), 0.
      rewrite <- Hsame. now destruct icmp.
Qed.
